(** * twitter-json-to-xml: TweetCollection.py and word_count.py

    A shallow embedding of the two programs of the repository and the
    properties of their behaviour.

    - [TweetCollection] reads a file holding one JSON object per line and
      writes an XML document with one <tweet> per original post.
    - [word_count] reads that document back and sums the words of every
      <body>.

    Conventions of the embedding.
    - A Python [str] is a [string]; each character is one code point below
      256.
    - A value returned by [json.loads] is a [json]; numbers are the integers
      (a line holding a fractional number is outside the model).
    - A Python exception is [Raise e]; nothing is said about the instance
      after an exception.
    - [datetime.strptime] with the format of line 28 and [etree.tostring]
      with the options of line 34 are library functions: the builder is
      parameterised by them. *)

From stdpp Require Import base option list gmap strings sorting.
From Stdlib Require Import ZArith Ascii String Lia.

Set Warnings "-register-all".
Local Open Scope string_scope.
Local Open Scope list_scope.
Local Open Scope Z_scope.

(** ** Exceptions and the error monad *)

Inductive exn :=
| JSONDecodeError
| KeyError (k : string)
| TypeError
| ValueError
| AttributeError.

Inductive res (A : Type) :=
| Ok (a : A)
| Raise (e : exn).
Arguments Ok {A} a.
Arguments Raise {A} e.

Global Instance res_ret : MRet res := λ A a, Ok a.
Global Instance res_bind : MBind res := λ A B f m,
  match m with
  | Ok a => f a
  | Raise e => Raise e
  end.

Definition is_raise {A} (m : res A) : Prop :=
  match m with Ok _ => False | Raise _ => True end.

(** ** Values of json.loads *)

Inductive json :=
| JNull
| JBool (b : bool)
| JNum (n : Z)
| JStr (s : string)
| JArr (l : list json)
| JObj (kvs : list (string * json)).

(** Induction that reaches the values stored in an object. *)
Section json_induction.
Variable P : json → Prop.
Hypothesis HNull : P JNull.
Hypothesis HBool : ∀ b, P (JBool b).
Hypothesis HNum : ∀ n, P (JNum n).
Hypothesis HStr : ∀ s, P (JStr s).
Hypothesis HArr : ∀ l, P (JArr l).
Hypothesis HObj : ∀ kvs, Forall (λ kv, P kv.2) kvs → P (JObj kvs).

Fixpoint json_values_ind (j : json) : P j :=
  match j with
  | JNull => HNull
  | JBool b => HBool b
  | JNum n => HNum n
  | JStr s => HStr s
  | JArr l => HArr l
  | JObj kvs =>
      HObj kvs
        ((fix go (l : list (string * json)) : Forall (λ kv, P kv.2) l :=
            match l with
            | [] => List.Forall_nil _
            | kv :: l' =>
                @List.Forall_cons _ (λ kv, P kv.2) kv l'
                  (match kv return P kv.2 with (_, v) => json_values_ind v end)
                  (go l')
            end) kvs)
  end.
End json_induction.

(** [d[k]] on a dict: the first binding of [k]. *)
Fixpoint dict_get (k : string) (kvs : list (string * json)) : option json :=
  match kvs with
  | [] => None
  | (k', v) :: rest => if String.eqb k k' then Some v else dict_get k rest
  end.

(** [x[k]] for a string [k]: only a dict can be subscripted by a string;
    a missing key is a KeyError. *)
Definition getitem (x : json) (k : string) : res json :=
  match x with
  | JObj kvs =>
      match dict_get k kvs with
      | Some v => Ok v
      | None => Raise (KeyError k)
      end
  | _ => Raise TypeError
  end.

(** [if x:] *)
Definition truthy (x : json) : bool :=
  match x with
  | JNull => false
  | JBool b => b
  | JNum n => negb (n =? 0)
  | JStr s => negb (String.eqb s "")
  | JArr l => match l with [] => false | _ => true end
  | JObj kvs => match kvs with [] => false | _ => true end
  end.

(** [for y in x]: a list gives its items, a dict its keys, a string its
    characters; nothing else can be iterated. *)
Definition py_iter (x : json) : res (list json) :=
  match x with
  | JArr l => Ok l
  | JObj kvs => Ok (map (λ kv, JStr kv.1) kvs)
  | JStr s => Ok (map (λ c, JStr (String c EmptyString)) (list_ascii_of_string s))
  | _ => Raise TypeError
  end.

(** Members of a Python set of JSON scalars.  [True == 1] and [False == 0],
    with equal hashes, so a boolean is the same member as its integer. *)
Inductive key :=
| KNone
| KInt (n : Z)
| KStr (s : string).

Global Instance key_eq_dec : EqDecision key.
Proof. solve_decision. Defined.

Definition key_to_sum (k : key) : unit + Z + string :=
  match k with
  | KNone => inl (inl ())
  | KInt n => inl (inr n)
  | KStr s => inr s
  end.

Definition key_of_sum (x : unit + Z + string) : key :=
  match x with
  | inl (inl _) => KNone
  | inl (inr n) => KInt n
  | inr s => KStr s
  end.

Global Instance key_countable : Countable key.
Proof.
  apply (inj_countable' key_to_sum key_of_sum).
  by intros [].
Defined.

(** [hash(x)]: lists and dicts are unhashable. *)
Definition hashable (x : json) : res key :=
  match x with
  | JNull => Ok KNone
  | JBool b => Ok (KInt (if b then 1 else 0))
  | JNum n => Ok (KInt n)
  | JStr s => Ok (KStr s)
  | JArr _ | JObj _ => Raise TypeError
  end.

(** ** lxml elements *)

Inductive elem :=
| Element (tag : string) (attrib : list (string * string))
          (text : option string) (children : list elem).

Definition tag (e : elem) : string := match e with Element t _ _ _ => t end.
Definition attrib (e : elem) : list (string * string) :=
  match e with Element _ a _ _ => a end.
Definition text (e : elem) : option string :=
  match e with Element _ _ x _ => x end.
Definition children (e : elem) : list elem :=
  match e with Element _ _ _ c => c end.

(** [etree.Element(tag)] *)
Definition new_element (t : string) : elem := Element t [] None [].

(** [e.attrib[k]] and [e.get(k)] *)
Fixpoint attr_get (k : string) (a : list (string * string)) : option string :=
  match a with
  | [] => None
  | (k', v) :: rest => if String.eqb k k' then Some v else attr_get k rest
  end.

Definition elem_get (e : elem) (k : string) : option string := attr_get k (attrib e).

(** Attributes keep the order in which they were first set. *)
Fixpoint attr_set (k v : string) (a : list (string * string))
  : list (string * string) :=
  match a with
  | [] => [(k, v)]
  | (k', v') :: rest =>
      if String.eqb k k' then (k, v) :: rest else (k', v') :: attr_set k v rest
  end.

(** The characters lxml accepts in a text or an attribute value: tab, line
    feed, carriage return and everything from the space on. *)
Definition xml_char (c : ascii) : bool :=
  let n := nat_of_ascii c in
  ((n =? 9) || (n =? 10) || (n =? 13) || (32 <=? n))%nat.

(** What lxml does with a value assigned to a text or an attribute: only a
    string is accepted (TypeError), and only one of XML characters
    (ValueError). *)
Definition utf8 (v : json) : res string :=
  match v with
  | JStr s =>
      if forallb xml_char (list_ascii_of_string s) then Ok s else Raise ValueError
  | _ => Raise TypeError
  end.

(** [e.set(k, v)] *)
Definition elem_set (e : elem) (k : string) (v : json) : res elem :=
  s ← utf8 v;
  Ok (Element (tag e) (attr_set k s (attrib e)) (text e) (children e)).

(** [e.text = v]: None removes the text. *)
Definition set_text (e : elem) (v : json) : res elem :=
  match v with
  | JNull => Ok (Element (tag e) (attrib e) None (children e))
  | _ =>
      s ← utf8 v;
      Ok (Element (tag e) (attrib e) (Some s) (children e))
  end.

(** [parent.append(child)] for a child that has no parent yet. *)
Definition append (parent child : elem) : elem :=
  Element (tag parent) (attrib parent) (text parent) (children parent ++ [child]).

(** [for x in l: s = f(s, x)], stopping at the first exception. *)
Fixpoint for_each {A S : Type} (f : S → A → res S) (l : list A) (s : S) : res S :=
  match l with
  | [] => Ok s
  | x :: rest => s' ← f s x; for_each f rest s'
  end.

(** ** TweetCollection.py *)

(** The instance: the fields set by [__init__].  [parsed_tweets] is the
    generator returned by [json_reader]: the lines it has not read yet, each
    one given by what [json.loads] makes of it ([None] when it raises). *)
Record TweetCollection := {
  tweet_ids : gset key;
  xml_root : elem;
  parsed_tweets : list (option json);
  output_tweets : list elem
}.

Definition set_tweet_ids (self : TweetCollection) (ids : gset key) :=
  {| tweet_ids := ids; xml_root := xml_root self;
     parsed_tweets := parsed_tweets self; output_tweets := output_tweets self |}.

Definition set_xml_root (self : TweetCollection) (r : elem) :=
  {| tweet_ids := tweet_ids self; xml_root := r;
     parsed_tweets := parsed_tweets self; output_tweets := output_tweets self |}.

Definition set_parsed_tweets (self : TweetCollection) (g : list (option json)) :=
  {| tweet_ids := tweet_ids self; xml_root := xml_root self;
     parsed_tweets := g; output_tweets := output_tweets self |}.

Definition set_output_tweets (self : TweetCollection) (l : list elem) :=
  {| tweet_ids := tweet_ids self; xml_root := xml_root self;
     parsed_tweets := parsed_tweets self; output_tweets := l |}.

(** [json_reader] (lines 129-137): the generator over the lines of [file],
    which yields [json.loads(line)] for each. *)
Definition json_reader (file : list (option json)) : list (option json) := file.

(** [__init__] (lines 12-16), given the lines of [input_json]. *)
Definition init (input_json : list (option json)) : TweetCollection :=
  {| tweet_ids := ∅; xml_root := new_element "tweets";
     parsed_tweets := json_reader input_json; output_tweets := [] |}.

(** [add_user] (lines 82-91).  The new <user> is the last child of
    [parent_elem]; the result is [parent_elem] after the call. *)
Definition add_user (parent_elem : elem) (user_dict : json) : res elem :=
  let user_elem := new_element "user" in
  v ← getitem user_dict "screen_name";
  user_elem ← elem_set user_elem "screen_name" v;
  v ← getitem user_dict "id_str";
  user_elem ← elem_set user_elem "id" v;
  Ok (append parent_elem user_elem).

(** Lines 117-119 and 125-127: one child [tag] whose text is [item[field]]. *)
Definition add_text_child (t field : string) (parent_elem : elem) (item : json)
  : res elem :=
  let child := new_element t in
  v ← getitem item field;
  child ← set_text child v;
  Ok (append parent_elem child).

(** [add_details] (lines 93-127).  The result is [parent_elem] after the
    call, with its new last child <details>. *)
Definition add_details (parent_elem : elem) (tweet_dict : json) : res elem :=
  let details_elem := new_element "details" in
  user ← getitem tweet_dict "user";
  details_elem ← add_user details_elem user;
  truncated ← getitem tweet_dict "truncated";
  entities_dict ←
    (if truthy truncated
     then ext ← getitem tweet_dict "extended_tweet"; getitem ext "entities"
     else getitem tweet_dict "entities");
  hashtags ← getitem entities_dict "hashtags";
  hashtags ← py_iter hashtags;
  details_elem ← for_each (add_text_child "hashtag" "text") hashtags details_elem;
  let mentions_elem := new_element "user_mentions" in
  mentions ← getitem entities_dict "user_mentions";
  mentions ← py_iter mentions;
  mentions_elem ← for_each add_user mentions mentions_elem;
  let details_elem := append details_elem mentions_elem in
  urls ← getitem entities_dict "urls";
  urls ← py_iter urls;
  details_elem ← for_each (add_text_child "url" "expanded_url") urls details_elem;
  Ok (append parent_elem details_elem).

(** The call [f(d[k])] when [k in d]; written by recursion on the dict so
    that [add_tweet] below is structural. *)
Definition call_on_key {S : Type} (f : json → S) (k : string)
  : list (string * json) → option S :=
  fix go kvs :=
    match kvs with
    | [] => None
    | (k', v) :: rest => if String.eqb k k' then Some (f v) else go rest
    end.

(** [add_tweet] (lines 37-80).  [tweet_elem] is the object stored at index
    [i] of [output_tweets] from line 60 on; its current value is kept in a
    local and stored at [i] when the method returns (the nested call of line
    67 appends to the list and reads none of its elements). *)
Fixpoint add_tweet (tweet_dict : json) (self : TweetCollection) {struct tweet_dict}
  : res TweetCollection :=
  match tweet_dict with
  | JObj kvs =>
      id ← getitem tweet_dict "id";
      k ← hashable id;
      if decide (k ∈ tweet_ids self) then Ok self
      else
        let self := set_tweet_ids self ({[k]} ∪ tweet_ids self) in
        match call_on_key add_tweet "retweeted_status" kvs with
        | Some add_retweeted => add_retweeted self
        | None =>
            let tweet_elem := new_element "tweet" in
            let i := List.length (output_tweets self) in
            let self := set_output_tweets self (output_tweets self ++ [tweet_elem]) in
            v ← getitem tweet_dict "id_str";
            tweet_elem ← elem_set tweet_elem "id" v;
            v ← getitem tweet_dict "created_at";
            tweet_elem ← elem_set tweet_elem "created_at" v;
            '(tweet_elem, self) ←
              match call_on_key add_tweet "quoted_status" kvs with
              | Some add_quoted =>
                  quoted ← getitem tweet_dict "quoted_status";
                  v ← getitem quoted "id_str";
                  tweet_elem ← elem_set tweet_elem "quoted_from" v;
                  self ← add_quoted self;
                  Ok (tweet_elem, self)
              | None => Ok (tweet_elem, self)
              end;
            let body_elem := new_element "body" in
            truncated ← getitem tweet_dict "truncated";
            tweet_text ←
              (if truthy truncated
               then ext ← getitem tweet_dict "extended_tweet"; getitem ext "full_text"
               else getitem tweet_dict "text");
            body_elem ← set_text body_elem tweet_text;
            let tweet_elem := append tweet_elem body_elem in
            tweet_elem ← add_details tweet_elem tweet_dict;
            Ok (set_output_tweets self (<[i := tweet_elem]> (output_tweets self)))
        end
  | _ => Raise TypeError
  end.

(** The builder, given the two library functions it calls:
    [strptime s] is [datetime.strptime(s, "%a %b %d %H:%M:%S %z %Y")], an
    instant on the UTC time line ([None] when it raises ValueError), which is
    how two aware datetimes compare; [tostring r] is the string written by
    lines 34-35. *)
Section builder.
Variable strptime : string → option Z.
Variable tostring : elem → string.

(** The key of line 28. *)
Definition sort_key (x : elem) : res Z :=
  match attr_get "created_at" (attrib x) with
  | None => Raise (KeyError "created_at")
  | Some s =>
      match strptime s with
      | Some t => Ok t
      | None => Raise ValueError
      end
  end.

(** [list.sort(key=...)]: the keys are computed first, one per element, and
    the sort is stable. *)
Fixpoint decorate (l : list elem) : res (list (Z * elem)) :=
  match l with
  | [] => Ok []
  | x :: rest => k ← sort_key x; d ← decorate rest; Ok ((k, x) :: d)
  end.

Fixpoint insert_by_key (x : Z * elem) (l : list (Z * elem)) : list (Z * elem) :=
  match l with
  | [] => [x]
  | y :: rest => if y.1 <? x.1 then y :: insert_by_key x rest else x :: l
  end.

Definition stable_sort (l : list (Z * elem)) : list (Z * elem) :=
  foldr insert_by_key [] l.

Definition sort_output_tweets (l : list elem) : res (list elem) :=
  d ← decorate l; Ok (map snd (stable_sort d)).

(** Lines 25-26: pull the generator until it is exhausted. *)
Fixpoint add_tweets (lines : list (option json)) (self : TweetCollection)
  : res TweetCollection :=
  match lines with
  | [] => Ok (set_parsed_tweets self [])
  | None :: _ => Raise JSONDecodeError
  | Some tweet :: rest =>
      self ← add_tweet tweet (set_parsed_tweets self rest);
      add_tweets rest self
  end.

(** Lines 24-31: everything [write_xml] does before it opens the file. *)
Definition build (self : TweetCollection) : res TweetCollection :=
  let self := set_output_tweets self [] in
  self ← add_tweets (parsed_tweets self) self;
  sorted ← sort_output_tweets (output_tweets self);
  let self := set_output_tweets self sorted in
  Ok (set_xml_root self (foldl append (xml_root self) (output_tweets self))).

(** [write_xml] (lines 18-35) on a file system that maps a path to the
    content of the file.  Opening the file for writing is taken to
    succeed. *)
Definition write_xml (self : TweetCollection) (output : string)
    (fs : gmap string string) : res TweetCollection * gmap string string :=
  match build self with
  | Ok self => (Ok self, <[output := tostring (xml_root self)]> fs)
  | Raise e => (Raise e, fs)
  end.
End builder.

(** ** word_count.py *)

(** [str.isspace] on one character. *)
Definition isspace (c : ascii) : bool :=
  let n := nat_of_ascii c in
  (((9 <=? n) && (n <=? 13)) || ((28 <=? n) && (n <=? 32))
   || (n =? 133) || (n =? 160))%nat.

(** [s.split()]: the maximal runs of characters that are not whitespace.
    [word] is the run being read, if any. *)
Fixpoint split_from (word : option string) (s : string) : list string :=
  match s with
  | EmptyString => match word with Some w => [w] | None => [] end
  | String c rest =>
      if isspace c
      then match word with
           | Some w => w :: split_from None rest
           | None => split_from None rest
           end
      else split_from (Some (default "" word +:+ String c "")) rest
  end.

Definition split (s : string) : list string := split_from None s.

(** [e.iter()]: the element and its descendants, in document order. *)
Fixpoint iter_all (e : elem) : list elem :=
  match e with
  | Element _ _ _ c => e :: List.concat (map iter_all c)
  end.

(** [e.iter(t)] *)
Definition iter (t : string) (e : elem) : list elem :=
  filter (λ x, tag x = t) (iter_all e).

(** What one pass of the loop of [count_words] yields (line 6):
    [None.split()] is an AttributeError. *)
Definition yield_len (body : elem) : res nat :=
  match text body with
  | Some s => Ok (List.length (split s))
  | None => Raise AttributeError
  end.

Fixpoint yield_all (bodies : list elem) : res (list nat) :=
  match bodies with
  | [] => Ok []
  | body :: rest => n ← yield_len body; ns ← yield_all rest; Ok (n :: ns)
  end.

(** [count_words] (lines 4-6), drained. *)
Definition count_words (xml_tree : elem) : res (list nat) :=
  yield_all (iter "body" xml_tree).

(** Line 11: [sum(count_words(tree))], for the tree that [etree.parse]
    returns. *)
Definition word_count (tree : elem) : res nat :=
  counts ← count_words tree; Ok (foldr Nat.add 0%nat counts).

(** * The vocabulary of the properties *)

(** The member of [tweet_ids] that line 48 looks up for a record. *)
Definition id_key (tweet_dict : json) : res key :=
  id ← getitem tweet_dict "id"; hashable id.

(** [tweet_dict[k]] when the record is a dict that has the key. *)
Definition field (k : string) (tweet_dict : json) : option json :=
  match tweet_dict with
  | JObj kvs => dict_get k kvs
  | _ => None
  end.

(** Line 54: ["retweeted_status" in tweet_dict]. *)
Definition is_retweet (tweet_dict : json) : bool :=
  bool_decide (is_Some (field "retweeted_status" tweet_dict)).

(** Lines 59-66 without the nested call: the attributes of the <tweet>. *)
Definition tweet_attrs (tweet_dict : json) : res elem :=
  let tweet_elem := new_element "tweet" in
  v ← getitem tweet_dict "id_str";
  tweet_elem ← elem_set tweet_elem "id" v;
  v ← getitem tweet_dict "created_at";
  tweet_elem ← elem_set tweet_elem "created_at" v;
  match field "quoted_status" tweet_dict with
  | Some quoted =>
      v ← getitem quoted "id_str";
      elem_set tweet_elem "quoted_from" v
  | None => Ok tweet_elem
  end.

(** The effective text of lines 72-75. *)
Definition tweet_text (tweet_dict : json) : res json :=
  truncated ← getitem tweet_dict "truncated";
  if truthy truncated
  then ext ← getitem tweet_dict "extended_tweet"; getitem ext "full_text"
  else getitem tweet_dict "text".

(** Lines 68-80: the <body> and the <details>. *)
Definition tweet_content (tweet_elem : elem) (tweet_dict : json) : res elem :=
  let body_elem := new_element "body" in
  txt ← tweet_text tweet_dict;
  body_elem ← set_text body_elem txt;
  let tweet_elem := append tweet_elem body_elem in
  add_details tweet_elem tweet_dict.

(** The <tweet> that [add_tweet] leaves in [output_tweets] for a record
    that is not a retweet. *)
Definition tweet_element (tweet_dict : json) : res elem :=
  tweet_elem ← tweet_attrs tweet_dict;
  tweet_content tweet_elem tweet_dict.

(** [nested_in r t]: [r] is [t], or a record found in [t] by following
    [retweeted_status] and [quoted_status]. *)
Inductive nested_in (r : json) : json → Prop :=
| nested_here : nested_in r r
| nested_retweeted t s :
    field "retweeted_status" t = Some s → nested_in r s → nested_in r t
| nested_quoted t q :
    field "quoted_status" t = Some q → nested_in r q → nested_in r t.

(** One <tweet> of [output_tweets] with the record it was made from and the
    member that the record's id is in [tweet_ids]. *)
Record made := Made { made_from : json; made_key : key; made_elem : elem }.

(** The element is the one of the record, which is a record of [U] and not
    a retweet. *)
Definition made_ok (U : json → Prop) (m : made) : Prop :=
  tweet_element (made_from m) = Ok (made_elem m)
  ∧ id_key (made_from m) = Ok (made_key m)
  ∧ is_retweet (made_from m) = false
  ∧ U (made_from m).

(** [added U self self' ms]: from [self] to [self'] the elements of [ms] were
    appended, made from records of [U] with new, pairwise different ids. *)
Record added (U : json → Prop) (self self' : TweetCollection) (ms : list made)
  : Prop := {
  added_root : xml_root self' = xml_root self;
  added_parsed : parsed_tweets self' = parsed_tweets self;
  added_output : output_tweets self' = output_tweets self ++ map made_elem ms;
  added_ok : Forall (made_ok U) ms;
  added_nodup : NoDup (map made_key ms);
  added_fresh : ∀ m, m ∈ ms → made_key m ∉ tweet_ids self;
  added_in : ∀ m, m ∈ ms → made_key m ∈ tweet_ids self';
  added_mono : tweet_ids self ⊆ tweet_ids self';
  added_seen : ∀ k, k ∈ tweet_ids self' →
    k ∈ tweet_ids self
    ∨ ∃ r, U r ∧ id_key r = Ok k
           ∧ (is_retweet r = true ∨ ∃ m, m ∈ ms ∧ made_from m = r);
  added_quoted : ∀ m q, m ∈ ms → field "quoted_status" (made_from m) = Some q →
    ∃ k, id_key q = Ok k ∧ k ∈ tweet_ids self'
}.

(** The effect of a call of [add_tweet] that returns. *)
Definition returns_added (t : json) : Prop :=
  ∀ self self', add_tweet t self = Ok self' →
    (∃ k, id_key t = Ok k ∧ k ∈ tweet_ids self')
    ∧ ∃ ms, added (λ r, nested_in r t) self self' ms.

(** The order of the decorated elements. *)
Definition key_le (p q : Z * elem) : Prop := p.1 ≤ q.1.

(** The instant that the [created_at] of an element stands for. *)
Definition created_at_time (strptime : string → option Z) (e : elem) : option Z :=
  s ← elem_get e "created_at"; strptime s.

(** The records of the input: the parsed lines and what is nested in them. *)
Definition in_input (lines : list (option json)) (r : json) : Prop :=
  ∃ t, Some t ∈ lines ∧ nested_in r t.

(** Lines 111-114: the entities that [add_details] reads. *)
Definition tweet_entities (tweet_dict : json) : res json :=
  truncated ← getitem tweet_dict "truncated";
  if truthy truncated
  then ext ← getitem tweet_dict "extended_tweet"; getitem ext "entities"
  else getitem tweet_dict "entities".

(** Lines 116-127: the children of <details> after the author. *)
Definition fill_details (details_elem : elem) (entities_dict : json) : res elem :=
  hashtags ← getitem entities_dict "hashtags";
  hashtags ← py_iter hashtags;
  details_elem ← for_each (add_text_child "hashtag" "text") hashtags details_elem;
  mentions ← getitem entities_dict "user_mentions";
  mentions ← py_iter mentions;
  mentions_elem ← for_each add_user mentions (new_element "user_mentions");
  let details_elem := append details_elem mentions_elem in
  urls ← getitem entities_dict "urls";
  urls ← py_iter urls;
  for_each (add_text_child "url" "expanded_url") urls details_elem.

(** The <details> of an author and of the entities that were chosen. *)
Definition details_of (author entities_dict : json) : res elem :=
  details_elem ← add_user (new_element "details") author;
  fill_details details_elem entities_dict.

(** The dict with [d[k] = v]: the first binding is the one that is read. *)
Definition set_field (k : string) (v : json) (t : json) : json :=
  match t with
  | JObj kvs => JObj ((k, v) :: kvs)
  | _ => t
  end.

(** The <body> and the <details> of [x] are those that [truncated] selects
    in [r]. *)
Definition chosen_content (r : json) (x : elem) : Prop :=
  ∃ truncated author body details,
    children x = [body; details]
    ∧ getitem r "truncated" = Ok truncated
    ∧ getitem r "user" = Ok author
    ∧ if truthy truncated
      then ∃ ext full_text entities_dict,
             getitem r "extended_tweet" = Ok ext
             ∧ getitem ext "full_text" = Ok full_text
             ∧ getitem ext "entities" = Ok entities_dict
             ∧ set_text (new_element "body") full_text = Ok body
             ∧ details_of author entities_dict = Ok details
      else ∃ txt entities_dict,
             getitem r "text" = Ok txt
             ∧ getitem r "entities" = Ok entities_dict
             ∧ set_text (new_element "body") txt = Ok body
             ∧ details_of author entities_dict = Ok details.

(** What makes a call of [write_xml] fail before line 33. *)
Inductive fatal (strptime : string → option Z) (self : TweetCollection) : Prop :=
| fatal_line :
    (* a line that json.loads rejects *)
    None ∈ parsed_tweets self → fatal strptime self
| fatal_id t :
    (* a record without an id *)
    Some t ∈ parsed_tweets self → is_raise (id_key t) → fatal strptime self
| fatal_record e :
    (* any exception of add_tweet during the pass *)
    add_tweets (parsed_tweets self) (set_output_tweets self []) = Raise e →
    fatal strptime self
| fatal_created_at mid x :
    (* a created_at that strptime rejects *)
    add_tweets (parsed_tweets self) (set_output_tweets self []) = Ok mid →
    x ∈ output_tweets mid → created_at_time strptime x = None →
    fatal strptime self.

(** The records of [nested_in], as a list. *)
Fixpoint nested (t : json) : list json :=
  t :: match t with
       | JObj kvs =>
           default [] (call_on_key nested "retweeted_status" kvs)
           ++ default [] (call_on_key nested "quoted_status" kvs)
       | _ => []
       end.

(** ** A parser for the examples

    [strptime_fixed] reads the layout ["Mon Jan 02 15:04:05 +0000 2006"]
    with every field at its usual width, and gives the seconds from
    1970-01-01T00:00:00Z.  It is used to run the builder on concrete
    records; the theorems hold for any parser. *)

Definition digit (c : ascii) : option Z :=
  let n := Z.of_nat (nat_of_ascii c) in
  if (48 <=? n) && (n <=? 57) then Some (n - 48) else None.

Fixpoint digits (acc : Z) (s : string) : option Z :=
  match s with
  | EmptyString => Some acc
  | String c rest => d ← digit c; digits (acc * 10 + d) rest
  end.

Definition number (s : string) (start len : nat) : option Z :=
  digits 0 (String.substring start len s).

Fixpoint index_of (x : string) (l : list string) (i : Z) : option Z :=
  match l with
  | [] => None
  | y :: rest => if String.eqb x y then Some i else index_of x rest (i + 1)
  end.

Definition weekdays : list string :=
  ["Mon"; "Tue"; "Wed"; "Thu"; "Fri"; "Sat"; "Sun"].

Definition months : list string :=
  ["Jan"; "Feb"; "Mar"; "Apr"; "May"; "Jun";
   "Jul"; "Aug"; "Sep"; "Oct"; "Nov"; "Dec"].

Definition is_leap (y : Z) : bool :=
  ((y mod 4 =? 0) && negb (y mod 100 =? 0)) || (y mod 400 =? 0).

Definition days_in_month (y m : Z) : Z :=
  if m =? 2 then (if is_leap y then 29 else 28)
  else if (m =? 4) || (m =? 6) || (m =? 9) || (m =? 11) then 30
  else 31.

(** Days from 1970-01-01 to the given date of the Gregorian calendar. *)
Definition days_from_civil (y m d : Z) : Z :=
  let y := if m <=? 2 then y - 1 else y in
  let era := y / 400 in
  let yoe := y - era * 400 in
  let doy := (153 * (if 2 <? m then m - 3 else m + 9) + 2) / 5 + d - 1 in
  let doe := yoe * 365 + yoe / 4 - yoe / 100 + doy in
  era * 146097 + doe - 719468.

Definition separators_ok (s : string) : bool :=
  forallb (λ p, match String.get p.1 s with
                | Some c => Ascii.eqb c p.2
                | None => false
                end)
    [(3, " "); (7, " "); (10, " "); (13, ":"); (16, ":"); (19, " "); (25, " ")]%nat%char.

Definition strptime_fixed (s : string) : option Z :=
  if negb (String.length s =? 30)%nat || negb (separators_ok s) then None else
  _ ← index_of (String.substring 0 3 s) weekdays 0;
  month ← index_of (String.substring 4 3 s) months 1;
  day ← number s 8 2;
  hour ← number s 11 2;
  minute ← number s 14 2;
  second ← number s 17 2;
  sign ← (match String.get 20 s with
          | Some "+"%char => Some 1
          | Some "-"%char => Some (-1)
          | _ => None
          end);
  zh ← number s 21 2;
  zm ← number s 23 2;
  year ← number s 26 4;
  if (1 <=? year) && (1 <=? day) && (day <=? days_in_month year month)
     && (hour <? 24) && (minute <? 60) && (second <? 60)
     && (zh <? 24) && (zm <? 60)
  then Some (days_from_civil year month day * 86400
             + hour * 3600 + minute * 60 + second
             - sign * (zh * 3600 + zm * 60))
  else None.

(** The file content of the examples: the tree itself is not rendered, only
    its tweets are named. *)
Definition tostring_ids (r : elem) : string :=
  String.concat "," (map (λ e, default "?" (elem_get e "id")) (children r)).

Definition entities (hashtags mentions urls : list json) : json :=
  JObj [("hashtags", JArr hashtags); ("user_mentions", JArr mentions);
        ("urls", JArr urls)].

Definition user (screen_name id_str : string) : json :=
  JObj [("screen_name", JStr screen_name); ("id_str", JStr id_str)].

(** An original post: not truncated, no nested status. *)
Definition post (id : Z) (id_str created_at txt : string) (author : json) : json :=
  JObj [("id", JNum id); ("id_str", JStr id_str); ("created_at", JStr created_at);
        ("text", JStr txt); ("truncated", JBool false); ("user", author);
        ("entities", entities [] [] [])].

Definition with_field (k : string) (v : json) (t : json) : json :=
  match t with
  | JObj kvs => JObj (kvs ++ [(k, v)])
  | _ => t
  end.

Definition alice : json := user "alice" "11".
Definition bob : json := user "bob" "22".

Definition post_S : json :=
  post 100 "100" "Mon Jan 02 15:04:05 +0000 2006" "the original" alice.
Definition retweet_R : json :=
  with_field "retweeted_status" post_S
    (post 200 "200" "Tue Jan 03 10:00:00 +0000 2006" "RT @alice: the original" bob).

(** A record of the examples that quotes [quoted]. *)
Definition quote_B : json :=
  with_field "quoted_status" post_S
    (post 300 "300" "Tue Jan 03 10:00:00 +0000 2006" "look at this" bob).

(** A truncated record: the full text is under [extended_tweet]. *)
Definition truncated_post : json :=
  JObj [("id", JNum 500); ("id_str", JStr "500");
        ("created_at", JStr "Wed Jan 04 09:30:00 +0000 2006");
        ("text", JStr "hello"); ("truncated", JBool true);
        ("user", alice);
        ("entities", entities [] [] []);
        ("extended_tweet",
         JObj [("full_text", JStr "hello world foo");
               ("entities",
                entities [JObj [("text", JStr "foo")]] [bob]
                         [JObj [("expanded_url", JStr "http://example.org/")]])])].

Definition run (lines : list (option json))
  : res TweetCollection * gmap string string :=
  write_xml strptime_fixed tostring_ids (init lines) "tweets.xml" ∅.

(** A retweet of a post that quotes another one. *)
Definition retweet_of_quote : json :=
  with_field "retweeted_status" quote_B
    (post 201 "201" "Wed Jan 04 08:00:00 +0000 2006" "RT @bob: look at this" alice).

(** A post that quotes a retweet. *)
Definition quote_of_retweet : json :=
  with_field "quoted_status" retweet_R
    (post 400 "400" "Thu Jan 05 08:00:00 +0000 2006" "so true" alice).

(** The id of [post_S] under another [id_str], and another id under the
    [id_str] of [post_S]. *)
Definition same_id_other_str : json :=
  post 100 "101" "Fri Jan 06 08:00:00 +0000 2006" "again" bob.
Definition other_id_same_str : json :=
  post 101 "100" "Fri Jan 06 08:00:00 +0000 2006" "again" bob.

(** The id of the post that [quote_B] quotes under the [id_str] of
    [quote_B]; a retweet that has the id of [same_id_other_str]. *)
Definition quoted_id_same_str : json :=
  post 100 "300" "Fri Jan 06 08:00:00 +0000 2006" "again" bob.
Definition retweet_same_id : json :=
  with_field "retweeted_status"
    (post 50 "50" "Sun Jan 01 12:00:00 +0000 2006" "the first one" alice)
    (post 100 "100" "Mon Jan 02 15:04:05 +0000 2006"
       "RT @alice: the first one" bob).

(** The instance after a first call of [write_xml] on one record. *)
Definition after_first : TweetCollection :=
  match (run [Some post_S]).1 with
  | Ok self => self
  | Raise _ => init []
  end.

(** The files before the run of an example. *)
Definition old_files : gmap string string := {["tweets.xml" := "an earlier run"]}.

(** Records that end the run: no id, a date that is not in the format, no
    text. *)
Definition no_id : json := JObj [("id_str", JStr "700"); ("text", JStr "?")].
Definition bad_date : json := post 701 "701" "2006-01-02T15:04:05Z" "iso" bob.
Definition no_text : json :=
  JObj [("id", JNum 702); ("id_str", JStr "702");
        ("created_at", JStr "Mon Jan 02 15:04:05 +0000 2006");
        ("truncated", JBool false); ("user", bob);
        ("entities", entities [] [] [])].

(** A post whose text is empty, and the tree that [etree.parse] returns
    for the document written for it: the <body> has no text. *)
Definition empty_post : json :=
  post 600 "600" "Sat Jan 07 08:00:00 +0000 2006" "" alice.

Definition parsed_empty_body : elem :=
  Element "tweets" [] None
    [Element "tweet"
       [("id", "600"); ("created_at", "Sat Jan 07 08:00:00 +0000 2006")] None
       [Element "body" [] None [];
        Element "details" [] None
          [Element "user" [("screen_name", "alice"); ("id", "11")] None [];
           Element "user_mentions" [] None []]]].

(** [add_tweet] on a state that differs in the generator only. *)
Definition ignores_generator (t : json) : Prop :=
  ∀ self g,
    add_tweet t (set_parsed_tweets self g)
    = (s ← add_tweet t self; Ok (set_parsed_tweets s g)).

(** [goes_into t n]: the nested call of [add_tweet] on [t], when the id of
    [t] is new, is on [n] (line 55 or line 67). *)
Definition goes_into (t n : json) : Prop :=
  field "retweeted_status" t = Some n
  ∨ (is_retweet t = false ∧ field "quoted_status" t = Some n).

(** The <user> that [add_user] appends (lines 89-91). *)
Definition user_element (user_dict : json) : res elem :=
  v ← getitem user_dict "screen_name";
  user_elem ← elem_set (new_element "user") "screen_name" v;
  v ← getitem user_dict "id_str";
  elem_set user_elem "id" v.

(** The child that lines 118-119 and 126-127 append for one item. *)
Definition text_element (t field : string) (item : json) : res elem :=
  v ← getitem item field; set_text (new_element t) v.

(** [entities_dict[k]] as a loop of [add_details] runs over it. *)
Definition items (entities_dict : json) (k : string) : res (list json) :=
  v ← getitem entities_dict k; py_iter v.

(** A string that lxml accepts. *)
Definition xml_string (s : string) : bool :=
  forallb xml_char (list_ascii_of_string s).

(** The shapes of the elements of the document. *)
Definition is_user (e : elem) : Prop :=
  tag e = "user" ∧ map fst (attrib e) = ["screen_name"; "id"]
  ∧ text e = None ∧ children e = [].

Definition is_leaf (t : string) (e : elem) : Prop :=
  tag e = t ∧ attrib e = [] ∧ children e = [].

Definition is_details (d : elem) : Prop :=
  tag d = "details" ∧ attrib d = [] ∧ text d = None
  ∧ ∃ author hashtags mentions urls,
      children d
      = author :: hashtags ++ [Element "user_mentions" [] None mentions] ++ urls
      ∧ is_user author ∧ Forall (is_leaf "hashtag") hashtags
      ∧ Forall is_user mentions ∧ Forall (is_leaf "url") urls.

Definition is_tweet (x : elem) : Prop :=
  tag x = "tweet" ∧ text x = None
  ∧ (map fst (attrib x) = ["id"; "created_at"]
     ∨ map fst (attrib x) = ["id"; "created_at"; "quoted_from"])
  ∧ ∃ body details,
      children x = [body; details] ∧ is_leaf "body" body ∧ is_details details.

(** A post that quotes a record without id. *)
Definition quote_of_no_id : json :=
  with_field "quoted_status" no_id
    (post 800 "800" "Sun Jan 08 08:00:00 +0000 2006" "what is this" bob).

(** A document of two tweets, as [etree.parse] returns it. *)
Definition parsed_two_tweets : list elem :=
  [Element "tweet" [("id", "1")] (Some "
    ")
     [Element "body" [] (Some "one two  three") [];
      Element "details" [] None [Element "hashtag" [] (Some "not counted") []]];
   Element "tweet" [("id", "2")] None
     [Element "body" [] (Some " four ") []]].

(** * Properties *)

(** Case analysis on a call whose exception would propagate. *)
Ltac call_case :=
  match goal with
  | |- context [dict_get ?k ?kvs] => destruct (dict_get k kvs) eqn:?
  | |- context [truthy ?x] => destruct (truthy x) eqn:?
  | |- context [@mbind res _ _ _ _ ?m] =>
      lazymatch m with
      | Ok _ => fail
      | Raise _ => fail
      | @mbind _ _ _ _ _ _ => fail
      | _ => destruct m eqn:?
      end
  end;
  cbn [mbind res_bind] in *.

(** Case analysis on a record known to be one of a list. *)
Ltac one_of H :=
  vm_compute in H;
  repeat (apply elem_of_cons in H as [->|H]);
  [..|by apply elem_of_nil in H].

(** ** The element of one record *)

Lemma call_on_key_dict_get {S} (f : json → S) k kvs :
  call_on_key f k kvs = f <$> dict_get k kvs.
Proof.
  induction kvs as [|[k' v] kvs IH]; simpl; [done|].
  destruct (String.eqb k k'); [done|apply IH].
Qed.

(** [add_tweet] on a dict, with the nested calls spelled out. *)
Lemma add_tweet_unfold kvs self :
  add_tweet (JObj kvs) self =
    k ← id_key (JObj kvs);
    if decide (k ∈ tweet_ids self) then Ok self
    else
      let self := set_tweet_ids self ({[k]} ∪ tweet_ids self) in
      match dict_get "retweeted_status" kvs with
      | Some retweeted => add_tweet retweeted self
      | None =>
          let i := List.length (output_tweets self) in
          let self :=
            set_output_tweets self (output_tweets self ++ [new_element "tweet"]) in
          tweet_elem ← tweet_attrs (JObj kvs);
          self ← match dict_get "quoted_status" kvs with
                 | Some quoted => add_tweet quoted self
                 | None => Ok self
                 end;
          tweet_elem ← tweet_content tweet_elem (JObj kvs);
          Ok (set_output_tweets self (<[i := tweet_elem]> (output_tweets self)))
      end.
Proof.
  cbn [add_tweet]. rewrite !call_on_key_dict_get.
  unfold id_key.
  destruct (getitem (JObj kvs) "id") as [id|]; [|done]. cbn [mbind res_bind].
  destruct (hashable id) as [k|]; [|done]. cbn [mbind res_bind].
  destruct (decide _); [done|].
  unfold tweet_attrs, tweet_content, tweet_text, field. cbn [getitem].
  destruct (dict_get "retweeted_status" kvs) as [rt|]; [done|].
  cbn [fmap option_fmap option_map].
  destruct (dict_get "quoted_status" kvs) as [q|];
    cbn [fmap option_fmap option_map mbind res_bind];
    repeat (call_case; try done).
Qed.

(** ** What one call of [add_tweet] adds *)

Lemma made_ok_weaken (U V : json → Prop) m :
  (∀ r, U r → V r) → made_ok U m → made_ok V m.
Proof. intros HUV (?&?&?&?). repeat split; auto. Qed.

Lemma added_weaken (U V : json → Prop) self self' ms :
  (∀ r, U r → V r) → added U self self' ms → added V self self' ms.
Proof.
  intros HUV [].
  split; try done.
  - eapply Forall_impl; [done|]. intros m. by apply made_ok_weaken.
  - intros k Hk. destruct (added_seen0 k Hk) as [?|(r&?&?&?)]; [by left|].
    right. exists r. auto.
Qed.

Lemma added_refl U self : added U self self [].
Proof.
  split; try done.
  - simpl. by rewrite app_nil_r.
  - constructor.
  - intros m Hm. by apply elem_of_nil in Hm.
  - intros m Hm. by apply elem_of_nil in Hm.
  - auto.
  - intros m q Hm. by apply elem_of_nil in Hm.
Qed.

Lemma added_trans U s1 s2 s3 ms1 ms2 :
  added U s1 s2 ms1 → added U s2 s3 ms2 → added U s1 s3 (ms1 ++ ms2).
Proof.
  intros [] [].
  split.
  - congruence.
  - congruence.
  - rewrite added_output1, added_output0, map_app. by rewrite (assoc_L (++)).
  - apply Forall_app. done.
  - rewrite map_app. apply NoDup_app. split_and!; [done| |done].
    intros k (m1&->&Hm1)%list_elem_of_fmap (m2&Heq&Hm2)%list_elem_of_fmap.
    apply (added_fresh1 m2 Hm2). rewrite <- Heq. by apply added_in0.
  - intros m [Hm|Hm]%elem_of_app; [by apply added_fresh0|].
    intros Hk. apply (added_fresh1 m Hm). by apply added_mono0.
  - intros m [Hm|Hm]%elem_of_app; [|by apply added_in1].
    apply added_mono1. by apply added_in0.
  - set_solver.
  - intros k Hk.
    destruct (added_seen1 k Hk) as [Hk2|(r&?&?&Hr)].
    + destruct (added_seen0 k Hk2) as [?|(r&?&?&Hr)]; [by left|].
      right. exists r. split_and!; [done..|].
      destruct Hr as [?|(m&?&?)]; [by left|]. right. exists m. set_solver.
    + right. exists r. split_and!; [done..|].
      destruct Hr as [?|(m&?&?)]; [by left|]. right. exists m. set_solver.
  - intros m q [Hm|Hm]%elem_of_app Hq.
    + destruct (added_quoted0 m q Hm Hq) as (k&?&?). exists k. split; [done|].
      by apply added_mono1.
    + by apply (added_quoted1 m q Hm Hq).
Qed.

Lemma dict_get_Forall (P : json → Prop) k kvs v :
  Forall (λ kv, P kv.2) kvs → dict_get k kvs = Some v → P v.
Proof.
  induction 1 as [|[k' v'] kvs HP _ IH]; simpl; [done|].
  destruct (String.eqb k k'); [|done]. by intros [= <-].
Qed.

Lemma insert_at_length {A} (l rest : list A) (x y : A) :
  <[List.length l := y]> (l ++ x :: rest) = l ++ y :: rest.
Proof. rewrite insert_app_r_alt by lia. by rewrite Nat.sub_diag. Qed.

Lemma is_retweet_obj kvs :
  is_retweet (JObj kvs) = bool_decide (is_Some (dict_get "retweeted_status" kvs)).
Proof. done. Qed.

(** Line 60 to the end of [add_tweet], given what the nested call of line
    67 added. *)
Lemma added_original (U : json → Prop) kvs k self self3 ms e0 e :
  id_key (JObj kvs) = Ok k →
  k ∉ tweet_ids self →
  dict_get "retweeted_status" kvs = None →
  tweet_attrs (JObj kvs) = Ok e0 →
  tweet_content e0 (JObj kvs) = Ok e →
  U (JObj kvs) →
  added U
    (set_output_tweets (set_tweet_ids self ({[k]} ∪ tweet_ids self))
       (output_tweets self ++ [new_element "tweet"]))
    self3 ms →
  (∀ q, dict_get "quoted_status" kvs = Some q →
     ∃ kq, id_key q = Ok kq ∧ kq ∈ tweet_ids self3) →
  added U self
    (set_output_tweets self3
       (<[List.length (output_tweets self) := e]> (output_tweets self3)))
    (Made (JObj kvs) k e :: ms).
Proof.
  intros Hk Hnin Hrt He0 He HU [] Hq. simpl in *.
  split; simpl; try done.
  - rewrite added_output0, <- (assoc_L (++)). simpl.
    by rewrite insert_at_length.
  - constructor; [|done]. split_and!; simpl; [|done| |done].
    + unfold tweet_element. by rewrite He0.
    + rewrite is_retweet_obj, Hrt. apply bool_decide_eq_false. by intros [? ?].
  - constructor; [|done].
    intros (m&Heq&Hm)%list_elem_of_fmap. simpl in Heq. subst k.
    specialize (added_fresh0 m Hm). set_solver.
  - intros m [->|Hm]%elem_of_cons; [done|].
    specialize (added_fresh0 m Hm). set_solver.
  - intros m [->|Hm]%elem_of_cons; [simpl; set_solver|by apply added_in0].
  - set_solver.
  - intros k' Hk'.
    destruct (added_seen0 k' Hk') as [[->%elem_of_singleton|?]%elem_of_union
                                     |(r&?&?&Hr)].
    + right. exists (JObj kvs). split_and!; [done..|].
      right. eexists. split; [by left|done].
    + by left.
    + right. exists r. split_and!; [done..|].
      destruct Hr as [?|(m&?&?)]; [by left|]. right. exists m.
      split; [by right|done].
  - intros m q [->|Hm]%elem_of_cons Hmq.
    + by apply Hq.
    + by apply (added_quoted0 m q).
Qed.

Lemma add_tweet_added t : returns_added t.
Proof.
  induction t as [| | | | |kvs IH] using json_values_ind; try done.
  intros self self'. rewrite add_tweet_unfold.
  destruct (id_key (JObj kvs)) as [k|] eqn:Hk; [|done]. cbn [mbind res_bind].
  destruct (decide (k ∈ tweet_ids self)) as [Hin|Hnin].
  { intros [= <-]. split; [by exists k|]. exists []. apply added_refl. }
  cbn zeta.
  destruct (dict_get "retweeted_status" kvs) as [s|] eqn:Hrt.
  - (* a retweet: only the nested call *)
    intros Hs.
    pose proof (dict_get_Forall returns_added _ _ _ IH Hrt) as IHs.
    destruct (IHs _ _ Hs) as [_ [ms Hms]].
    destruct Hms. simpl in *.
    split; [exists k; split; [done|set_solver]|].
    exists ms. split; simpl; try done.
    + eapply Forall_impl; [done|]. intros m. apply made_ok_weaken.
      intros r Hr. by eapply nested_retweeted.
    + intros m Hm. specialize (added_fresh0 m Hm). set_solver.
    + set_solver.
    + intros k' Hk'.
      destruct (added_seen0 k' Hk') as [[->%elem_of_singleton|?]%elem_of_union
                                       |(r&?&?&?)].
      * right. exists (JObj kvs). split_and!; [constructor|done|].
        left. rewrite is_retweet_obj, Hrt. by apply bool_decide_eq_true.
      * by left.
      * right. exists r. split_and!; [|done..]. by eapply nested_retweeted.
  - (* an original post *)
    destruct (tweet_attrs (JObj kvs)) as [e0|] eqn:He0; [|done].
    cbn [mbind res_bind].
    destruct (dict_get "quoted_status" kvs) as [q|] eqn:Hq.
    + destruct (add_tweet q _) as [self3|] eqn:Hadd; [|done].
      cbn [mbind res_bind].
      destruct (tweet_content e0 (JObj kvs)) as [e|] eqn:He; [|done].
      cbn [mbind res_bind]. intros [= <-].
      pose proof (dict_get_Forall returns_added _ _ _ IH Hq) as IHq.
      destruct (IHq _ _ Hadd) as [Hkq [ms Hms]].
      split.
      { exists k. split; [done|]. simpl. apply (added_mono _ _ _ _ Hms). simpl.
        apply elem_of_union. left. by apply elem_of_singleton. }
      exists (Made (JObj kvs) k e :: ms).
      eapply added_original; [done..|apply nested_here| |by intros ? ?; simplify_eq].
      eapply added_weaken; [|done].
      intros r Hr. by eapply nested_quoted.
    + cbn [mbind res_bind].
      destruct (tweet_content e0 (JObj kvs)) as [e|] eqn:He; [|done].
      cbn [mbind res_bind]. intros [= <-].
      split.
      { exists k. split; [done|]. simpl. set_solver. }
      exists [Made (JObj kvs) k e].
      eapply added_original; [done..|apply nested_here|apply added_refl|].
      intros q ?. simplify_eq.
Qed.

(** A record that is not a retweet and whose id is new gives the next
    element of [output_tweets]. *)
Lemma add_tweet_original t k self self' :
  is_retweet t = false → id_key t = Ok k → k ∉ tweet_ids self →
  add_tweet t self = Ok self' →
  ∃ e ms, tweet_element t = Ok e
          ∧ added (λ r, nested_in r t) self self' (Made t k e :: ms).
Proof.
  destruct t as [| | | | |kvs]; try done.
  rewrite is_retweet_obj. intros Hrt%bool_decide_eq_false Hk Hnin.
  rewrite add_tweet_unfold, Hk. cbn [mbind res_bind].
  destruct (decide _); [done|]. cbn zeta.
  destruct (dict_get "retweeted_status" kvs) as [s|] eqn:Hs.
  { destruct Hrt. by eexists. }
  destruct (tweet_attrs (JObj kvs)) as [e0|] eqn:He0; [|done].
  cbn [mbind res_bind].
  destruct (dict_get "quoted_status" kvs) as [q|] eqn:Hq.
  - destruct (add_tweet q _) as [self3|] eqn:Hadd; [|done].
    cbn [mbind res_bind].
    destruct (tweet_content e0 (JObj kvs)) as [e|] eqn:He; [|done].
    cbn [mbind res_bind]. intros [= <-].
    destruct (add_tweet_added q _ _ Hadd) as [Hkq [ms Hms]].
    exists e, ms. split; [unfold tweet_element; by rewrite He0|].
    eapply added_original; [done..|apply nested_here| |by intros ? ?; simplify_eq].
    eapply added_weaken; [|done].
    intros r Hr. by eapply nested_quoted.
  - cbn [mbind res_bind].
    destruct (tweet_content e0 (JObj kvs)) as [e|] eqn:He; [|done].
    cbn [mbind res_bind]. intros [= <-].
    exists e, []. split; [unfold tweet_element; by rewrite He0|].
    eapply added_original; [done..|apply nested_here|apply added_refl|].
    intros q ?. simplify_eq.
Qed.

(** A record whose id was seen is dropped. *)
Lemma add_tweet_seen t k self :
  id_key t = Ok k → k ∈ tweet_ids self → add_tweet t self = Ok self.
Proof.
  destruct t as [| | | | |kvs]; try done.
  intros Hk Hin. rewrite add_tweet_unfold, Hk. cbn [mbind res_bind].
  by destruct (decide _).
Qed.

(** A retweet with a new id: the id is recorded, then only the nested call
    of line 55 runs. *)
Lemma add_tweet_retweet t s k self :
  field "retweeted_status" t = Some s → id_key t = Ok k → k ∉ tweet_ids self →
  add_tweet t self = add_tweet s (set_tweet_ids self ({[k]} ∪ tweet_ids self)).
Proof.
  destruct t as [| | | | |kvs]; try done. cbn [field].
  intros Hs Hk Hnin. rewrite add_tweet_unfold, Hk. cbn [mbind res_bind].
  destruct (decide _); [done|]. cbn zeta. by rewrite Hs.
Qed.

(** ** The sort of line 28 *)

Lemma insert_by_key_perm x l : insert_by_key x l ≡ₚ x :: l.
Proof.
  induction l as [|y l IH]; simpl; [done|].
  destruct (y.1 <? x.1); [|done].
  rewrite IH. apply Permutation_swap.
Qed.

Lemma stable_sort_perm l : stable_sort l ≡ₚ l.
Proof.
  induction l as [|x l IH]; simpl; [done|].
  fold (stable_sort l). by rewrite insert_by_key_perm, IH.
Qed.

Lemma insert_by_key_sorted x l :
  StronglySorted key_le l → StronglySorted key_le (insert_by_key x l).
Proof.
  induction 1 as [|y l Hl IH Hy]; simpl.
  { by repeat constructor. }
  destruct (Z.ltb_spec y.1 x.1) as [Hlt|Hge].
  - constructor; [done|].
    rewrite insert_by_key_perm. constructor; [|done].
    unfold key_le. lia.
  - constructor; [by constructor|].
    constructor; [done|].
    eapply Forall_impl; [done|]. unfold key_le. intros; simpl in *. lia.
Qed.

Lemma stable_sort_sorted l : StronglySorted key_le (stable_sort l).
Proof.
  induction l as [|x l IH]; simpl; [constructor|].
  by apply insert_by_key_sorted.
Qed.

(** Equal keys keep their order: the sort is stable. *)
Lemma insert_by_key_filter (P : Z * elem → Prop) `{∀ p, Decision (P p)} x l :
  (∀ p, P p → P x → p.1 = x.1) →
  filter P (insert_by_key x l) = filter P (x :: l).
Proof.
  intros HP. induction l as [|y l IH]; simpl; [done|].
  destruct (Z.ltb_spec y.1 x.1) as [Hlt|Hge]; [|done].
  rewrite filter_cons, IH, !filter_cons.
  destruct (decide (P y)) as [Hy|]; [|done].
  destruct (decide (P x)) as [Hx|]; [|done].
  specialize (HP y Hy Hx). lia.
Qed.

Lemma stable_sort_stable t l :
  filter (λ p, p.1 = t) (stable_sort l) = filter (λ p, p.1 = t) l.
Proof.
  induction l as [|x l IH]; simpl; [done|]. fold (stable_sort l).
  rewrite insert_by_key_filter, !filter_cons, IH; [done|].
  intros p. simpl. congruence.
Qed.

Section builder_facts.
Variable strptime : string → option Z.
Variable tostring : elem → string.

Lemma sort_key_time x t : sort_key strptime x = Ok t ↔ created_at_time strptime x = Some t.
Proof.
  unfold sort_key, created_at_time, elem_get.
  destruct (attr_get "created_at" (attrib x)) as [s|]; simpl; [|done].
  destruct (strptime s); simpl; split; congruence.
Qed.

Lemma decorate_ok l d :
  decorate strptime l = Ok d →
  map snd d = l ∧ Forall2 (λ x t, created_at_time strptime x = Some t) l (map fst d).
Proof.
  revert d. induction l as [|x l IH]; simpl; intros d.
  { intros [= <-]. split; [done|constructor]. }
  destruct (sort_key strptime x) as [t|] eqn:Ht; [|done]. cbn [mbind res_bind].
  destruct (decorate strptime l) as [d'|]; [|done]. cbn [mbind res_bind].
  intros [= <-]. destruct (IH d' eq_refl) as [Hl ?].
  split; [by rewrite <- Hl|]. simpl. constructor; [|done]. by apply sort_key_time.
Qed.

Lemma decorate_raise l x :
  x ∈ l → created_at_time strptime x = None → is_raise (decorate strptime l).
Proof.
  intros Hx Hnone. induction Hx as [x l|x y l Hx IH]; simpl.
  - destruct (sort_key strptime x) as [t|] eqn:Ht; [|done].
    apply sort_key_time in Ht. congruence.
  - specialize (IH Hnone).
    destruct (sort_key strptime y); [|done]. cbn [mbind res_bind].
    destruct (decorate strptime l); done.
Qed.

(** The elements after line 28: the same elements, in the order of their
    instants. *)
Lemma sort_output_tweets_ok l sorted :
  sort_output_tweets strptime l = Ok sorted →
  sorted ≡ₚ l
  ∧ ∃ ts, Forall2 (λ x t, created_at_time strptime x = Some t) sorted ts
          ∧ StronglySorted Z.le ts.
Proof.
  unfold sort_output_tweets.
  destruct (decorate strptime l) as [d|] eqn:Hd; [|done]. cbn [mbind res_bind].
  intros [= <-]. destruct (decorate_ok _ _ Hd) as [Hl Hts].
  split.
  { rewrite <- Hl. by rewrite stable_sort_perm. }
  exists (map fst (stable_sort d)). split.
  - assert (Forall (λ p, created_at_time strptime p.2 = Some p.1) d) as Hall.
    { clear Hd. subst l. induction d as [|p d IH]; [constructor|].
      simpl in Hts. apply Forall2_cons in Hts as [? ?]. constructor; auto. }
    rewrite <- (stable_sort_perm d) in Hall.
    induction Hall; simpl; by constructor.
  - pose proof (stable_sort_sorted d) as Hs.
    induction Hs as [|p d' _ IH Hp]; simpl; constructor; [done|].
    apply Forall_fmap. done.
Qed.
End builder_facts.

(** ** The pass over the records and the document *)

Lemma added_set_parsed_tweets U self self' ms g :
  added U self self' ms →
  added U (set_parsed_tweets self g) (set_parsed_tweets self' g) ms.
Proof. intros []. by split. Qed.

Lemma foldl_append r l :
  foldl append r l = Element (tag r) (attrib r) (text r) (children r ++ l).
Proof.
  revert r. induction l as [|x l IH]; intros r; simpl.
  - rewrite app_nil_r. by destruct r.
  - rewrite IH. simpl. by rewrite <- (assoc_L (++)).
Qed.

Lemma add_tweets_added lines :
  ∀ self self', add_tweets lines self = Ok self' →
    ∃ ms, added (in_input lines) (set_parsed_tweets self []) self' ms.
Proof.
  induction lines as [|[t|] lines IH]; intros self self'; simpl; [| |done].
  { intros [= <-]. exists []. apply added_refl. }
  destruct (add_tweet t _) as [s1|] eqn:Ht; [|done]. cbn [mbind res_bind].
  intros Hrest.
  destruct (add_tweet_added t _ _ Ht) as [_ [ms1 H1]].
  destruct (IH _ _ Hrest) as [ms2 H2].
  exists (ms1 ++ ms2).
  apply (added_trans _ _ (set_parsed_tweets s1 [])).
  - apply (added_set_parsed_tweets _ _ _ _ []) in H1.
    eapply added_weaken; [|exact H1].
    intros r Hr. exists t. split; [left|done].
  - eapply added_weaken; [|exact H2].
    intros r (t'&?&?). exists t'. split; [by right|done].
Qed.

(** A pass that returns has read every line, and [add_tweet] has returned
    on each. *)
Lemma add_tweets_lines lines :
  ∀ self self', add_tweets lines self = Ok self' →
    Forall (λ line, ∃ t s s', line = Some t ∧ add_tweet t s = Ok s') lines.
Proof.
  induction lines as [|[t|] lines IH]; intros self self'; simpl; [done| |done].
  destruct (add_tweet t _) as [s1|] eqn:Ht; [|done]. cbn [mbind res_bind].
  intros Hrest. constructor; [|by eapply IH].
  by eexists _, _, _.
Qed.

Lemma add_tweet_needs_id t self : is_raise (id_key t) → is_raise (add_tweet t self).
Proof.
  destruct t; try done. rewrite add_tweet_unfold.
  by destruct (id_key _).
Qed.

Section build_facts.
Variable strptime : string → option Z.
Variable tostring : elem → string.

(** What a call of [write_xml] that returns has done before it opens the
    file. *)
Lemma build_ok self self' :
  build strptime self = Ok self' →
  ∃ mid ms,
    added (in_input (parsed_tweets self))
      (set_parsed_tweets (set_output_tweets self []) []) mid ms
    ∧ sort_output_tweets strptime (map made_elem ms) = Ok (output_tweets self')
    ∧ tweet_ids self' = tweet_ids mid
    ∧ parsed_tweets self' = []
    ∧ xml_root self' =
        Element (tag (xml_root self)) (attrib (xml_root self))
          (text (xml_root self))
          (children (xml_root self) ++ output_tweets self').
Proof.
  unfold build. simpl.
  destruct (add_tweets _ _) as [mid|] eqn:Hmid; [|done]. cbn [mbind res_bind].
  destruct (sort_output_tweets strptime _) as [sorted|] eqn:Hsort; [|done].
  cbn [mbind res_bind]. intros [= <-].
  destruct (add_tweets_added _ _ _ Hmid) as [ms Hms].
  exists mid, ms. pose proof Hms as []. simpl in *.
  rewrite added_output0 in Hsort.
  split_and!; try done.
  by rewrite foldl_append, added_root0.
Qed.

Lemma write_xml_ok self output fs self' fs' :
  write_xml strptime tostring self output fs = (Ok self', fs') →
  build strptime self = Ok self'
  ∧ fs' = <[output := tostring (xml_root self')]> fs.
Proof.
  unfold write_xml. destruct (build strptime self); [|done].
  by intros [= <- <-].
Qed.

Lemma write_xml_raise self output fs e fs' :
  write_xml strptime tostring self output fs = (Raise e, fs') →
  build strptime self = Raise e ∧ fs' = fs.
Proof.
  unfold write_xml. destruct (build strptime self); [done|].
  by intros [= <- <-].
Qed.
End build_facts.

Lemma added_permute U self self' ms ms' :
  added U self self' ms → ms' ≡ₚ ms →
  added U self
    (set_output_tweets self' (output_tweets self ++ map made_elem ms')) ms'.
Proof.
  intros [] Hp. split; simpl; try done.
  - by rewrite Hp.
  - by rewrite Hp.
  - intros m Hm. rewrite Hp in Hm. auto.
  - intros m Hm. rewrite Hp in Hm. auto.
  - intros k Hk. destruct (added_seen0 k Hk) as [?|(r&?&?&Hr)]; [by left|].
    right. exists r. split_and!; [done..|].
    destruct Hr as [?|(m&?&?)]; [by left|]. right. exists m. by rewrite Hp.
  - intros m q Hm. rewrite Hp in Hm. eauto.
Qed.

Section document.
Variable strptime : string → option Z.
Variable tostring : elem → string.

(** The document of a new instance after [write_xml] has returned: its
    tweets are those made during the pass, in the order of their
    instants. *)
Lemma write_xml_fresh lines output fs self' fs' :
  write_xml strptime tostring (init lines) output fs = (Ok self', fs') →
  ∃ ms,
    added (in_input lines) (init [])
      (set_xml_root self' (new_element "tweets")) ms
    ∧ xml_root self' = Element "tweets" [] None (map made_elem ms)
    ∧ (∃ ts, Forall2 (λ x t, created_at_time strptime x = Some t)
               (map made_elem ms) ts
             ∧ StronglySorted Z.le ts)
    ∧ fs' = <[output := tostring (xml_root self')]> fs.
Proof.
  intros [Hbuild ->]%write_xml_ok.
  destruct (build_ok _ _ _ Hbuild) as (mid & ms & Hms & Hsort & Hids & Hp & Hroot).
  simpl in *.
  destruct (sort_output_tweets_ok _ _ _ Hsort) as [Hperm Hts].
  apply Permutation_map_inv in Hperm as (ms' & Heq & Hperm').
  exists ms'. rewrite <- Heq. split_and!; [|done|done|done].
  apply (added_permute _ _ _ _ ms') in Hms; [|done].
  simpl in Hms. rewrite <- Heq in Hms.
  destruct Hms. simpl in *.
  split; simpl; try done; by rewrite ?Hids.
Qed.
End document.

(** ** The shape of a <tweet> *)

Lemma add_details_unfold parent_elem tweet_dict :
  add_details parent_elem tweet_dict =
    author ← getitem tweet_dict "user";
    details_elem ← add_user (new_element "details") author;
    entities_dict ← tweet_entities tweet_dict;
    details_elem ← fill_details details_elem entities_dict;
    Ok (append parent_elem details_elem).
Proof.
  unfold add_details, tweet_entities, fill_details.
  destruct (getitem tweet_dict "user") as [author|]; [|done].
  cbn [mbind res_bind].
  destruct (add_user _ author) as [d|]; [|done]. cbn [mbind res_bind].
  destruct (getitem tweet_dict "truncated") as [tr|]; [|done].
  cbn [mbind res_bind].
  destruct (truthy tr); repeat (call_case; try done).
Qed.

(** The attributes of a <tweet>. *)
Lemma tweet_attrs_ok t e0 :
  tweet_attrs t = Ok e0 →
  tag e0 = "tweet" ∧ text e0 = None ∧ children e0 = []
  ∧ ∃ i s,
      getitem t "id_str" = Ok (JStr i) ∧ elem_get e0 "id" = Some i
      ∧ getitem t "created_at" = Ok (JStr s) ∧ elem_get e0 "created_at" = Some s
      ∧ match field "quoted_status" t with
        | Some quoted =>
            ∃ q, getitem quoted "id_str" = Ok (JStr q)
                 ∧ elem_get e0 "quoted_from" = Some q
        | None => elem_get e0 "quoted_from" = None
        end.
Proof.
  unfold tweet_attrs, elem_set.
  destruct (getitem t "id_str") as [[| | |i| |]|]; try done.
  cbn [mbind res_bind utf8].
  destruct (forallb xml_char (list_ascii_of_string i)); [|done].
  cbn [mbind res_bind].
  destruct (getitem t "created_at") as [[| | |s| |]|]; try done.
  cbn [mbind res_bind utf8].
  destruct (forallb xml_char (list_ascii_of_string s)); [|done].
  cbn [mbind res_bind].
  destruct (field "quoted_status" t) as [quoted|].
  - destruct (getitem quoted "id_str") as [[| | |q| |]|]; try done.
    cbn [mbind res_bind utf8].
    destruct (forallb xml_char (list_ascii_of_string q)); [|done].
    cbn [mbind res_bind]. intros [= <-].
    split_and!; [done..|]. exists i, s. split_and!; [done..|]. by exists q.
  - intros [= <-]. split_and!; [done..|]. by exists i, s.
Qed.

(** The children of a <tweet>, by the value of [truncated]. *)
Lemma tweet_element_ok t e :
  tweet_element t = Ok e →
  ∃ e0 truncated author body details,
    tweet_attrs t = Ok e0
    ∧ tag e = tag e0 ∧ attrib e = attrib e0 ∧ text e = text e0
    ∧ children e = [body; details]
    ∧ getitem t "truncated" = Ok truncated
    ∧ getitem t "user" = Ok author
    ∧ if truthy truncated
      then ∃ ext full_text entities_dict,
             getitem t "extended_tweet" = Ok ext
             ∧ getitem ext "full_text" = Ok full_text
             ∧ getitem ext "entities" = Ok entities_dict
             ∧ set_text (new_element "body") full_text = Ok body
             ∧ details_of author entities_dict = Ok details
      else ∃ txt entities_dict,
             getitem t "text" = Ok txt
             ∧ getitem t "entities" = Ok entities_dict
             ∧ set_text (new_element "body") txt = Ok body
             ∧ details_of author entities_dict = Ok details.
Proof.
  unfold tweet_element, tweet_content.
  destruct (tweet_attrs t) as [e0|] eqn:He0; [|done]. cbn [mbind res_bind].
  unfold tweet_text, details_of.
  destruct (getitem t "truncated") as [tr|] eqn:Htr; [|done].
  cbn [mbind res_bind].
  destruct (tweet_attrs_ok _ _ He0) as (_&_&Hch&_).
  destruct (truthy tr) eqn:Htruthy.
  - destruct (getitem t "extended_tweet") as [ext|] eqn:Hext; [|done].
    cbn [mbind res_bind].
    destruct (getitem ext "full_text") as [ft|] eqn:Hft; [|done].
    cbn [mbind res_bind].
    destruct (set_text _ ft) as [body|] eqn:Hbody; [|done]. cbn [mbind res_bind].
    rewrite add_details_unfold. unfold tweet_entities.
    rewrite Htr. cbn [mbind res_bind]. rewrite Htruthy, Hext.
    cbn [mbind res_bind].
    destruct (getitem t "user") as [author|] eqn:Hauthor; [|done].
    cbn [mbind res_bind].
    destruct (add_user _ author) as [d0|] eqn:Hd0; [|done]. cbn [mbind res_bind].
    destruct (getitem ext "entities") as [ents|] eqn:Hents; [|done].
    cbn [mbind res_bind].
    destruct (fill_details d0 ents) as [d|] eqn:Hd; [|done]. cbn [mbind res_bind].
    intros [= <-]. exists e0, tr, author, body, d.
    split_and!; try done.
    { simpl. by rewrite Hch. }
    rewrite Htruthy. exists ext, ft, ents. by rewrite Hd0.
  - destruct (getitem t "text") as [txt|] eqn:Htxt; [|done]. cbn [mbind res_bind].
    destruct (set_text _ txt) as [body|] eqn:Hbody; [|done].
    cbn [mbind res_bind].
    rewrite add_details_unfold. unfold tweet_entities.
    rewrite Htr. cbn [mbind res_bind]. rewrite Htruthy.
    destruct (getitem t "user") as [author|] eqn:Hauthor; [|done].
    cbn [mbind res_bind].
    destruct (add_user _ author) as [d0|] eqn:Hd0; [|done]. cbn [mbind res_bind].
    destruct (getitem t "entities") as [ents|] eqn:Hents; [|done].
    cbn [mbind res_bind].
    destruct (fill_details d0 ents) as [d|] eqn:Hd; [|done]. cbn [mbind res_bind].
    intros [= <-]. exists e0, tr, author, body, d.
    split_and!; try done.
    { simpl. by rewrite Hch. }
    rewrite Htruthy. exists txt, ents. by rewrite Hd0.
Qed.

(** The fields that [truncated] does not select are not read. *)
Lemma tweet_element_ignores t tr v :
  getitem t "truncated" = Ok tr →
  if truthy tr
  then tweet_element (set_field "text" v t) = tweet_element t
       ∧ tweet_element (set_field "entities" v t) = tweet_element t
  else tweet_element (set_field "extended_tweet" v t) = tweet_element t.
Proof.
  destruct t as [| | | | |kvs]; try done.
  cbn [getitem]. destruct (dict_get "truncated" kvs) as [tr'|] eqn:Htr; [|done].
  intros [= ->].
  unfold tweet_element, tweet_attrs, tweet_content, tweet_text, add_details,
    set_field, field.
  cbn [getitem dict_get String.eqb Ascii.eqb Bool.eqb].
  rewrite !Htr. cbn [mbind res_bind].
  by destruct (truthy tr).
Qed.

Section claims.
Variable strptime : string → option Z.
Variable tostring : elem → string.

Lemma build_steps self self' :
  build strptime self = Ok self' →
  ∃ mid,
    add_tweets (parsed_tweets self) (set_output_tweets self []) = Ok mid
    ∧ sort_output_tweets strptime (output_tweets mid) = Ok (output_tweets self').
Proof.
  unfold build. cbn zeta.
  change (parsed_tweets (set_output_tweets self [])) with (parsed_tweets self).
  destruct (add_tweets _ _) as [mid|] eqn:Hmid; [|done]. cbn [mbind res_bind].
  destruct (sort_output_tweets strptime _) as [sorted|] eqn:Hs; [|done].
  cbn [mbind res_bind]. intros [= <-]. by exists mid.
Qed.

(** C1: the document holds at most one <tweet> per record id.  A record
    whose id is in [tweet_ids] is dropped and nothing is created; the id
    is in the set before the nested call of line 67 runs, so a record that
    quotes a record of its own id gets one element only; and the tweets of
    the document of any input are made from records of the input whose ids
    are pairwise different members of the set. *)
Theorem one_tweet_per_id :
  (∀ t k self, id_key t = Ok k → k ∈ tweet_ids self → add_tweet t self = Ok self)
  ∧ (∀ t q k self self',
       is_retweet t = false → field "quoted_status" t = Some q →
       id_key t = Ok k → id_key q = Ok k → k ∉ tweet_ids self →
       add_tweet t self = Ok self' →
       ∃ e, tweet_element t = Ok e
            ∧ output_tweets self' = output_tweets self ++ [e])
  ∧ (∀ lines output fs self' fs',
       write_xml strptime tostring (init lines) output fs = (Ok self', fs') →
       ∃ ms, children (xml_root self') = map made_elem ms
             ∧ Forall (made_ok (in_input lines)) ms
             ∧ NoDup (map made_key ms)).
Proof.
  split_and!.
  - apply add_tweet_seen.
  - intros t q k self self' Hrt Hq Hk Hkq Hnin.
    destruct t as [| | | | |kvs]; try done.
    rewrite is_retweet_obj in Hrt. apply bool_decide_eq_false in Hrt.
    cbn [field] in Hq.
    rewrite add_tweet_unfold, Hk. cbn [mbind res_bind].
    destruct (decide _); [done|]. cbn zeta.
    destruct (dict_get "retweeted_status" kvs) eqn:Hs.
    { destruct Hrt. by eexists. }
    unfold tweet_element.
    destruct (tweet_attrs (JObj kvs)) as [e0|]; [|done]. cbn [mbind res_bind].
    rewrite Hq, (add_tweet_seen q k); [|done|simpl; set_solver].
    cbn [mbind res_bind].
    destruct (tweet_content e0 (JObj kvs)) as [e|]; [|done].
    cbn [mbind res_bind]. intros [= <-]. exists e. split; [done|].
    simpl. by rewrite insert_at_length.
  - intros lines output fs self' fs' Hw.
    destruct (write_xml_fresh _ _ _ _ _ _ _ Hw) as (ms & Hms & Hroot & _).
    exists ms. rewrite Hroot. split_and!; [done|..]; by destruct Hms.
Qed.

(** C2: a fatal error leaves the file system as it was.  A line that is
    not JSON, a record without id, any exception of [add_tweet] and a
    [created_at] that [strptime] rejects all end [write_xml] with an
    exception and the files unchanged; whenever [write_xml] raises the
    files are unchanged; and when it returns, the pass and the sort have
    succeeded and the document is in the file. *)
Theorem error_writes_nothing self output fs :
  (fatal strptime self →
     ∃ e, write_xml strptime tostring self output fs = (Raise e, fs))
  ∧ (∀ e fs', write_xml strptime tostring self output fs = (Raise e, fs') →
       fs' = fs)
  ∧ (∀ self' fs',
       write_xml strptime tostring self output fs = (Ok self', fs') →
       ∃ mid,
         add_tweets (parsed_tweets self) (set_output_tweets self []) = Ok mid
         ∧ sort_output_tweets strptime (output_tweets mid)
           = Ok (output_tweets self')
         ∧ fs' = <[output := tostring (xml_root self')]> fs).
Proof.
  split_and!.
  - intros Hfatal.
    assert (is_raise (build strptime self)) as Hraise.
    { unfold build. cbn zeta.
      change (parsed_tweets (set_output_tweets self [])) with (parsed_tweets self).
      destruct (add_tweets _ _) as [mid|] eqn:Hmid; [|done].
      cbn [mbind res_bind].
      pose proof (add_tweets_lines _ _ _ Hmid) as Hlines.
      rewrite Forall_forall in Hlines.
      destruct Hfatal as [Hnone|t Ht Hid|e He|mid' x Hmid' Hx Hnone].
      - by destruct (Hlines _ Hnone) as (?&?&?&?&?).
      - destruct (Hlines _ Ht) as (t'&s&s'&[= <-]&Hadd).
        pose proof (add_tweet_needs_id t s Hid) as Hr. by rewrite Hadd in Hr.
      - congruence.
      - assert (mid' = mid) as -> by congruence.
        unfold sort_output_tweets.
        pose proof (decorate_raise strptime _ _ Hx Hnone) as Hd.
        by destruct (decorate strptime (output_tweets mid)). }
    unfold write_xml. destruct (build strptime self) as [|e]; [done|].
    by exists e.
  - intros e fs' Hw. by apply write_xml_raise in Hw as [_ ->].
  - intros self' fs' [Hbuild ->]%write_xml_ok.
    destruct (build_steps _ _ Hbuild) as (mid & ? & ?). by exists mid.
Qed.

(** C3: in the document of a build that succeeds the tweets are in
    non-decreasing order of the instants of their [created_at]; they are
    the elements of [output_tweets] as the pass left it, reordered by the
    sort of line 28; and the [created_at] of each is the string of the
    record it was made from. *)
Theorem document_in_time_order lines output fs self' fs' :
  write_xml strptime tostring (init lines) output fs = (Ok self', fs') →
  (∃ ts, Forall2 (λ x t, created_at_time strptime x = Some t)
           (children (xml_root self')) ts
         ∧ StronglySorted Z.le ts)
  ∧ (∃ mid, add_tweets lines (init lines) = Ok mid
            ∧ children (xml_root self') ≡ₚ output_tweets mid)
  ∧ (∀ x, x ∈ children (xml_root self') →
       ∃ r s, in_input lines r ∧ tweet_element r = Ok x
              ∧ getitem r "created_at" = Ok (JStr s)
              ∧ elem_get x "created_at" = Some s).
Proof.
  intros Hw.
  destruct (write_xml_fresh _ _ _ _ _ _ _ Hw) as (ms & Hms & Hroot & Hts & _).
  rewrite Hroot. cbn [children]. split_and!; [done|..].
  - pose proof Hw as [Hbuild _]%write_xml_ok.
    destruct (build_steps _ _ Hbuild) as (mid & Hmid & Hsort).
    exists mid. split; [done|].
    destruct (sort_output_tweets_ok _ _ _ Hsort) as [Hperm _].
    rewrite <- Hperm.
    destruct Hms. simpl in *. by rewrite added_output0.
  - intros x (m & -> & Hm)%list_elem_of_fmap.
    destruct Hms. rewrite Forall_forall in added_ok0.
    destruct (added_ok0 m Hm) as (He & _ & _ & HU).
    destruct (tweet_element_ok _ _ He) as (e0 & _ & _ & _ & _ & He0 & _ & Hattr & _).
    destruct (tweet_attrs_ok _ _ He0) as (_ & _ & _ & i & s & _ & _ & Hs & Hget & _).
    exists (made_from m), s. split_and!; [done..|].
    unfold elem_get in *. by rewrite Hattr.
Qed.

(** A record that is not a retweet, quotes nothing and has a new id: one
    more element, and its id in [tweet_ids]. *)
Lemma add_tweet_plain t k self :
  is_retweet t = false → field "quoted_status" t = None →
  id_key t = Ok k → k ∉ tweet_ids self →
  add_tweet t self =
    e ← tweet_element t;
    Ok (set_output_tweets (set_tweet_ids self ({[k]} ∪ tweet_ids self))
          (output_tweets self ++ [e])).
Proof.
  destruct t as [| | | | |kvs]; try done.
  rewrite is_retweet_obj. intros Hrt%bool_decide_eq_false Hq Hk Hnin.
  cbn [field] in Hq.
  rewrite add_tweet_unfold, Hk. cbn [mbind res_bind].
  destruct (decide _); [done|]. cbn zeta.
  destruct (dict_get "retweeted_status" kvs) eqn:Hs.
  { destruct Hrt. by eexists. }
  unfold tweet_element. rewrite Hq.
  destruct (tweet_attrs (JObj kvs)) as [e0|]; [|done]. cbn [mbind res_bind].
  destruct (tweet_content e0 (JObj kvs)) as [e|]; [|done]. cbn [mbind res_bind].
  simpl. by rewrite insert_at_length.
Qed.

Lemma sort_one x sorted :
  sort_output_tweets strptime [x] = Ok sorted → sorted = [x].
Proof.
  unfold sort_output_tweets. simpl.
  destruct (sort_key strptime x); [|done]. by intros [= <-].
Qed.

(** C4, amended: a record with a [retweeted_status] and a new id creates
    no element of its own: its call of [add_tweet] is the nested call of
    line 55 on the state in which only the id was recorded.  The input of
    one record R whose [retweeted_status] S is an original post with
    another id that quotes nothing gives a document of exactly one tweet,
    the element of S. *)
Theorem retweet_gives_the_original :
  (∀ t s k self,
     field "retweeted_status" t = Some s → id_key t = Ok k →
     k ∉ tweet_ids self →
     add_tweet t self
     = add_tweet s (set_tweet_ids self ({[k]} ∪ tweet_ids self)))
  ∧ (∀ R S kR kS output fs self' fs',
       field "retweeted_status" R = Some S →
       id_key R = Ok kR → id_key S = Ok kS → kS ≠ kR →
       is_retweet S = false → field "quoted_status" S = None →
       write_xml strptime tostring (init [Some R]) output fs = (Ok self', fs') →
       ∃ e, tweet_element S = Ok e ∧ children (xml_root self') = [e]).
Proof.
  split; [apply add_tweet_retweet|].
  intros R S kR kS output fs self' fs' HS HkR HkS Hne HnotrtS HnoqS Hw.
  apply write_xml_ok in Hw as [Hbuild _].
  destruct (build_ok _ _ _ Hbuild) as (_ & _ & _ & _ & _ & _ & Hroot).
  destruct (build_steps _ _ Hbuild) as (mid & Hmid & Hsort).
  rewrite Hroot. cbn [children init xml_root new_element app].
  cbn [add_tweets parsed_tweets init json_reader] in Hmid.
  rewrite (add_tweet_retweet R S kR) in Hmid; [|done|done|set_solver].
  rewrite (add_tweet_plain S kS) in Hmid; [|done|done|done|].
  2: { simpl. by intros [?%elem_of_singleton|?%elem_of_empty]%elem_of_union. }
  destruct (tweet_element S) as [e|]; [|done]. cbn [mbind res_bind] in Hmid.
  injection Hmid as <-. simpl in Hsort.
  apply sort_one in Hsort. exists e. by rewrite Hsort.
Qed.

(** The identifier of a quoted post, as [quoted_from] shows it. *)
Lemma tweet_element_quoted_from r x q :
  tweet_element r = Ok x → elem_get x "quoted_from" = Some q →
  ∃ quoted, field "quoted_status" r = Some quoted
            ∧ getitem quoted "id_str" = Ok (JStr q).
Proof.
  intros Hx Hq.
  destruct (tweet_element_ok _ _ Hx) as (e0 & _ & _ & _ & _ & He0 & _ & Hattr & _).
  destruct (tweet_attrs_ok _ _ He0) as (_ & _ & _ & i & s & _ & _ & _ & _ & Hquoted).
  unfold elem_get in *. rewrite Hattr in Hq.
  destruct (field "quoted_status" r) as [quoted|]; [|congruence].
  exists quoted. split; [done|].
  destruct Hquoted as (q' & ? & ?). congruence.
Qed.

Lemma tweet_element_id r x :
  tweet_element r = Ok x →
  ∃ i, getitem r "id_str" = Ok (JStr i) ∧ elem_get x "id" = Some i.
Proof.
  intros Hx.
  destruct (tweet_element_ok _ _ Hx) as (e0 & _ & _ & _ & _ & He0 & _ & Hattr & _).
  destruct (tweet_attrs_ok _ _ He0) as (_ & _ & _ & i & s & ? & ? & _).
  exists i. unfold elem_get in *. by rewrite Hattr.
Qed.

(** C5, amended: in the document of a build that succeeds every
    [quoted_from] is the [id] of a tweet of the document, when every
    record of the input that has the id of a quoted post has no
    [retweeted_status] and has the [id_str] of the quoted post. *)
Theorem quoted_post_is_in_the_document lines output fs self' fs' :
  write_xml strptime tostring (init lines) output fs = (Ok self', fs') →
  (∀ p quoted r k,
     in_input lines p → is_retweet p = false →
     field "quoted_status" p = Some quoted → id_key quoted = Ok k →
     in_input lines r → id_key r = Ok k →
     is_retweet r = false ∧ getitem r "id_str" = getitem quoted "id_str") →
  ∀ x q, x ∈ children (xml_root self') → elem_get x "quoted_from" = Some q →
    ∃ y, y ∈ children (xml_root self') ∧ elem_get y "id" = Some q.
Proof.
  intros Hw Hsame x q.
  destruct (write_xml_fresh _ _ _ _ _ _ _ Hw) as (ms & Hms & Hroot & _).
  rewrite Hroot. cbn [children].
  intros (m & -> & Hm)%list_elem_of_fmap Hq.
  destruct Hms. rewrite Forall_forall in added_ok0. simpl in *.
  destruct (added_ok0 m Hm) as (He & _ & Hnotrt & HU).
  destruct (tweet_element_quoted_from _ _ _ He Hq) as (quoted & Hquoted & Hqid).
  destruct (added_quoted0 m quoted Hm Hquoted) as (k & Hk & Hseen).
  destruct (added_seen0 k Hseen) as [Hempty|(r & Hr & Hkr & Hmade)].
  { by apply not_elem_of_empty in Hempty. }
  destruct (Hsame _ _ _ _ HU Hnotrt Hquoted Hk Hr Hkr) as [Hrnotrt Hrid].
  destruct Hmade as [Hrt|(m' & Hm' & <-)]; [congruence|].
  destruct (added_ok0 m' Hm') as (He' & _).
  destruct (tweet_element_id _ _ He') as (i & Hi & Hgeti).
  exists (made_elem m'). split; [by apply list_elem_of_fmap_2|].
  rewrite Hgeti. f_equal. congruence.
Qed.

(** C6: every tweet of the document was made from a record of the input,
    and its <body> and <details> follow [truncated]: when it is true the
    text is [extended_tweet.full_text] and the details are those of
    [extended_tweet.entities]; otherwise the text is [text] and the
    details are those of [entities].  The fields of the other branch are
    not read: giving them any other value leaves the element as it is.
    The record of the example, truncated
    with the full text "hello world foo", gives that body, and three
    words. *)
Theorem content_follows_truncated :
  (∀ lines output fs self' fs',
     write_xml strptime tostring (init lines) output fs = (Ok self', fs') →
     ∀ x, x ∈ children (xml_root self') →
       ∃ r, in_input lines r ∧ tweet_element r = Ok x ∧ chosen_content r x)
  ∧ (∀ t truncated v,
       getitem t "truncated" = Ok truncated →
       if truthy truncated
       then tweet_element (set_field "text" v t) = tweet_element t
            ∧ tweet_element (set_field "entities" v t) = tweet_element t
       else tweet_element (set_field "extended_tweet" v t) = tweet_element t)
  ∧ (∀ e, tweet_element truncated_post = Ok e →
       ∃ body details,
         children e = [body; details]
         ∧ tag body = "body" ∧ text body = Some "hello world foo"
         ∧ word_count e = Ok 3%nat).
Proof.
  split_and!.
  - intros lines output fs self' fs' Hw x.
    destruct (write_xml_fresh _ _ _ _ _ _ _ Hw) as (ms & Hms & Hroot & _).
    rewrite Hroot. cbn [children].
    intros (m & -> & Hm)%list_elem_of_fmap.
    destruct Hms. rewrite Forall_forall in added_ok0.
    destruct (added_ok0 m Hm) as (He & _ & _ & HU).
    exists (made_from m). split_and!; [done..|].
    destruct (tweet_element_ok _ _ He)
      as (e0 & tr & author & body & details & _ & _ & _ & _ & Hch & Htr & Hau & Hsel).
    by exists tr, author, body, details.
  - apply tweet_element_ignores.
  - intros e. vm_compute. intros [= <-]. by eexists _, _.
Qed.

(** C8, amended: [write_xml] starts by emptying [output_tweets], so what it
    does is the same whatever the list held; [tweet_ids] is not emptied:
    every id seen before the call is still in the set after it; and on an
    instance whose generator is exhausted the call only empties the list
    and writes the document again. *)
Theorem write_xml_resets_the_list_only self :
  (∀ l output fs,
     write_xml strptime tostring (set_output_tweets self l) output fs
     = write_xml strptime tostring self output fs)
  ∧ (∀ output fs self' fs',
       write_xml strptime tostring self output fs = (Ok self', fs') →
       tweet_ids self ⊆ tweet_ids self')
  ∧ (parsed_tweets self = [] →
     ∀ output fs,
       write_xml strptime tostring self output fs
       = (Ok (set_output_tweets self []),
          <[output := tostring (xml_root self)]> fs)).
Proof.
  split_and!.
  - done.
  - intros output fs self' fs' [Hbuild _]%write_xml_ok.
    destruct (build_ok _ _ _ Hbuild) as (mid & ms & Hms & _ & -> & _).
    by destruct Hms.
  - intros Hnil output fs. unfold write_xml, build. cbn zeta.
    change (parsed_tweets (set_output_tweets self [])) with (parsed_tweets self).
    rewrite Hnil. simpl.
    destruct self as [ids root parsed out]. simpl in *. subst parsed.
    unfold set_xml_root, set_output_tweets. simpl.
    by destruct root.
Qed.

(** C9, amended: the set is keyed on [id], the attribute comes from
    [id_str].  A record that follows a record of the same id is dropped
    without an exception, whatever its [id_str].  Two original posts with
    different ids, each new when it is read, and the same [id_str] both get
    an element, with the same [id].  In the document of a first record that
    is an original post quoting nothing and of a second record: with the
    same id, the only tweet is the element of the first; with different
    ids, a second record that is an original post and the same [id_str],
    the elements of both are there, with the same [id]. *)
Theorem dedup_is_by_id_not_id_str :
  (∀ r1 r2 k self self1,
     id_key r1 = Ok k → id_key r2 = Ok k →
     add_tweet r1 self = Ok self1 → add_tweet r2 self1 = Ok self1)
  ∧ (∀ r1 r2 k1 k2 self self1 self2,
       is_retweet r1 = false → is_retweet r2 = false →
       id_key r1 = Ok k1 → id_key r2 = Ok k2 →
       getitem r2 "id_str" = getitem r1 "id_str" →
       k1 ∉ tweet_ids self → add_tweet r1 self = Ok self1 →
       k2 ∉ tweet_ids self1 → add_tweet r2 self1 = Ok self2 →
       ∃ e1 e2 i between rest,
         tweet_element r1 = Ok e1 ∧ tweet_element r2 = Ok e2
         ∧ elem_get e1 "id" = Some i ∧ elem_get e2 "id" = Some i
         ∧ output_tweets self2
           = output_tweets self ++ e1 :: between ++ e2 :: rest)
  ∧ (∀ r1 r2 k1 k2 output fs self' fs',
       is_retweet r1 = false → field "quoted_status" r1 = None →
       id_key r1 = Ok k1 → id_key r2 = Ok k2 →
       write_xml strptime tostring (init [Some r1; Some r2]) output fs
         = (Ok self', fs') →
       ∃ e1 i1,
         tweet_element r1 = Ok e1 ∧ elem_get e1 "id" = Some i1
         ∧ getitem r1 "id_str" = Ok (JStr i1)
         ∧ (k1 = k2 → children (xml_root self') = [e1])
         ∧ (k1 ≠ k2 → is_retweet r2 = false →
            getitem r2 "id_str" = getitem r1 "id_str" →
            ∃ e2 rest,
              tweet_element r2 = Ok e2 ∧ elem_get e2 "id" = Some i1
              ∧ children (xml_root self') ≡ₚ e1 :: e2 :: rest)).
Proof.
  split_and!.
  - intros r1 r2 k self self1 Hk1 Hk2 Hadd.
    destruct (add_tweet_added r1 _ _ Hadd) as [(k' & Hk' & Hin) _].
    apply (add_tweet_seen r2 k); [done|congruence].
  - intros r1 r2 k1 k2 self self1 self2 Hrt1 Hrt2 Hk1 Hk2 Hid Hnew1 Hadd1 Hnew2 Hadd2.
    destruct (add_tweet_original _ _ _ _ Hrt1 Hk1 Hnew1 Hadd1)
      as (e1 & ms1 & He1 & Hms1).
    destruct (add_tweet_original _ _ _ _ Hrt2 Hk2 Hnew2 Hadd2)
      as (e2 & ms2 & He2 & Hms2).
    destruct (tweet_element_id _ _ He1) as (i1 & Hi1 & Hget1).
    destruct (tweet_element_id _ _ He2) as (i2 & Hi2 & Hget2).
    exists e1, e2, i1, (map made_elem ms1), (map made_elem ms2).
    split_and!; [done|done|done|congruence|].
    rewrite (added_output _ _ _ _ Hms2), (added_output _ _ _ _ Hms1).
    simpl. by rewrite <- (assoc_L (++)).
  - intros r1 r2 k1 k2 output fs self' fs' Hrt1 Hq1 Hk1 Hk2 [Hbuild _]%write_xml_ok.
    destruct (build_ok _ _ _ Hbuild) as (_ & _ & _ & _ & _ & _ & Hroot).
    destruct (build_steps _ _ Hbuild) as (mid & Hmid & Hsort).
    rewrite Hroot. cbn [children init xml_root new_element app].
    cbn [add_tweets parsed_tweets init json_reader] in Hmid.
    rewrite (add_tweet_plain r1 k1) in Hmid; [|done..].
    destruct (tweet_element r1) as [e1|] eqn:He1; [|done].
    cbn [mbind res_bind] in Hmid.
    destruct (tweet_element_id _ _ He1) as (i1 & Hi1 & Hget1).
    exists e1, i1. split_and!; [done..| |].
    + intros <-.
      rewrite (add_tweet_seen r2 k1) in Hmid; [|done|simpl; set_solver].
      cbn [mbind res_bind] in Hmid. injection Hmid as <-. simpl in Hsort.
      apply sort_one in Hsort. by rewrite Hsort.
    + intros Hne Hrt2 Hid.
      destruct (add_tweet r2 _) as [s2|] eqn:Hadd; [|done].
      cbn [mbind res_bind] in Hmid. injection Hmid as <-.
      eapply add_tweet_original in Hadd as (e2 & ms & He2 & Hms); [|done|done|].
      2: { simpl. by intros [?%elem_of_singleton|?%elem_of_empty]%elem_of_union. }
      destruct (tweet_element_id _ _ He2) as (i2 & Hi2 & Hget2).
      exists e2, (map made_elem ms). split_and!; [done|congruence|].
      destruct (sort_output_tweets_ok _ _ _ Hsort) as [Hperm _].
      rewrite Hperm. simpl. destruct Hms. simpl in *. by rewrite added_output0.
Qed.

(** C10: [write_xml] never resets [xml_root].  The root after a call that
    returns is the root before it with the sorted [output_tweets] appended
    to its children, and that root is what the file holds; after such a
    call the generator is exhausted, so every later call returns and
    writes the same root, with all the tweets of the earlier call. *)
Theorem xml_root_is_never_reset self output fs self' fs' :
  write_xml strptime tostring self output fs = (Ok self', fs') →
  xml_root self' =
    Element (tag (xml_root self)) (attrib (xml_root self)) (text (xml_root self))
      (children (xml_root self) ++ output_tweets self')
  ∧ fs' !! output = Some (tostring (xml_root self'))
  ∧ ∀ output2 fs2,
      ∃ self2,
        write_xml strptime tostring self' output2 fs2
          = (Ok self2, <[output2 := tostring (xml_root self')]> fs2)
        ∧ xml_root self2 = xml_root self'.
Proof.
  intros [Hbuild ->]%write_xml_ok.
  destruct (build_ok _ _ _ Hbuild) as (_ & _ & _ & _ & _ & Hnil & Hroot).
  split_and!; [done|by rewrite lookup_insert_eq|].
  intros output2 fs2. exists (set_output_tweets self' []).
  split; [|done].
  unfold write_xml, build. cbn zeta.
  change (parsed_tweets (set_output_tweets self' [])) with (parsed_tweets self').
  rewrite Hnil. simpl.
  destruct self' as [ids root parsed out]. simpl in *. subst parsed.
  unfold set_xml_root, set_output_tweets. simpl.
  by destruct root.
Qed.
End claims.

(** ** The builder on the records of the examples *)

Lemma nested_in_nested r t : nested_in r t → r ∈ nested t.
Proof.
  induction 1 as [|t s Hs _ IH|t q Hq _ IH].
  - destruct r; left.
  - destruct t as [| | | | |kvs]; try done. cbn [field] in Hs.
    cbn [nested]. rewrite !call_on_key_dict_get, Hs. right.
    apply elem_of_app. by left.
  - destruct t as [| | | | |kvs]; try done. cbn [field] in Hq.
    cbn [nested]. rewrite !call_on_key_dict_get, Hq. right.
    apply elem_of_app. by right.
Qed.

Lemma in_input_one t r : in_input [Some t] r → r ∈ nested t.
Proof.
  intros (t' & Ht' & Hr). apply list_elem_of_singleton in Ht'.
  injection Ht' as ->. by apply nested_in_nested.
Qed.

(** ** word_count.py on a document *)

Lemma yield_all_with_text bodies :
  Forall (λ body, is_Some (text body)) bodies →
  yield_all bodies
  = Ok (map (λ body, List.length (split (default "" (text body)))) bodies).
Proof.
  induction 1 as [|body bodies [s Hs] _ IH]; simpl; [done|].
  unfold yield_len. rewrite Hs, IH. done.
Qed.

(** When every <body> has a text, the result is the sum of the numbers of
    words of the <body> elements of the document. *)
Lemma word_count_with_text tree :
  Forall (λ body, is_Some (text body)) (iter "body" tree) →
  word_count tree
  = Ok (foldr Nat.add 0%nat
          (map (λ body, List.length (split (default "" (text body))))
               (iter "body" tree))).
Proof.
  intros Hall. unfold word_count, count_words.
  by rewrite yield_all_with_text.
Qed.

Lemma yield_all_without_text bodies body :
  body ∈ bodies → text body = None → yield_all bodies = Raise AttributeError.
Proof.
  intros Hin Hnone. induction Hin as [body bodies|body b bodies _ IH]; simpl.
  - unfold yield_len. by rewrite Hnone.
  - rewrite (IH Hnone). unfold yield_len. by destruct (text b).
Qed.

Lemma word_count_without_text tree body :
  body ∈ iter "body" tree → text body = None →
  word_count tree = Raise AttributeError.
Proof.
  intros Hin Hnone. unfold word_count, count_words.
  by rewrite (yield_all_without_text _ body).
Qed.

(** C7: the code against the claim.  A <body> without text does not count
    for zero: on the document written for a post whose text is empty,
    [body.text] is None and line 6 raises AttributeError. *)
Theorem word_count_fails_on_empty_body :
  word_count parsed_empty_body = Raise AttributeError.
Proof. done. Qed.

(** The builder gives that post a <body> whose text is the empty string. *)
Example empty_post_body :
  ∃ e details, tweet_element empty_post = Ok e
               ∧ children e = [Element "body" [] (Some "") []; details].
Proof. by eexists _, _. Qed.

(** ** The theorems on the records of the examples *)

(** C1 on three lines: a post that quotes [post_S], [post_S] itself and a
    retweet of it. *)
Lemma one_tweet_per_id_witness :
  ∃ self' fs',
    run [Some quote_B; Some post_S; Some retweet_R] = (Ok self', fs')
    ∧ ∃ ms, children (xml_root self') = map made_elem ms
            ∧ Forall (made_ok (in_input [Some quote_B; Some post_S; Some retweet_R])) ms
            ∧ NoDup (map made_key ms).
Proof.
  eexists _, _. split; [vm_compute; reflexivity|].
  eapply (proj2 (proj2 (one_tweet_per_id strptime_fixed tostring_ids))
            [Some quote_B; Some post_S; Some retweet_R] "tweets.xml" ∅).
  vm_compute. reflexivity.
Defined.

(** C2 on a file whose second line is not JSON. *)
Lemma error_writes_nothing_witness :
  ∃ e, write_xml strptime_fixed tostring_ids (init [Some post_S; None])
         "tweets.xml" old_files
       = (Raise e, old_files).
Proof.
  apply (proj1 (error_writes_nothing strptime_fixed tostring_ids
                  (init [Some post_S; None]) "tweets.xml" old_files)).
  apply fatal_line. simpl. apply list_elem_of_further, list_elem_of_here.
Defined.

(** The exceptions of the three kinds of error, with the files as they
    were. *)
Example fatal_errors :
  write_xml strptime_fixed tostring_ids (init [Some post_S; None])
    "tweets.xml" old_files = (Raise JSONDecodeError, old_files)
  ∧ write_xml strptime_fixed tostring_ids (init [Some post_S; Some no_id])
      "tweets.xml" old_files = (Raise (KeyError "id"), old_files)
  ∧ write_xml strptime_fixed tostring_ids (init [Some post_S; Some no_text])
      "tweets.xml" old_files = (Raise (KeyError "text"), old_files)
  ∧ write_xml strptime_fixed tostring_ids (init [Some post_S; Some bad_date])
      "tweets.xml" old_files = (Raise ValueError, old_files).
Proof. split_and!; vm_compute; reflexivity. Qed.

(** C3 on a post that quotes an earlier one. *)
Lemma document_in_time_order_witness :
  ∃ self' fs',
    run [Some quote_B] = (Ok self', fs')
    ∧ (∃ ts, Forall2 (λ x t, created_at_time strptime_fixed x = Some t)
               (children (xml_root self')) ts
             ∧ StronglySorted Z.le ts)
    ∧ (∃ mid, add_tweets [Some quote_B] (init [Some quote_B]) = Ok mid
              ∧ children (xml_root self') ≡ₚ output_tweets mid)
    ∧ (∀ x, x ∈ children (xml_root self') →
         ∃ r s, in_input [Some quote_B] r ∧ tweet_element r = Ok x
                ∧ getitem r "created_at" = Ok (JStr s)
                ∧ elem_get x "created_at" = Some s).
Proof.
  eexists _, _. split; [vm_compute; reflexivity|].
  eapply (document_in_time_order strptime_fixed tostring_ids
            [Some quote_B] "tweets.xml" ∅).
  vm_compute. reflexivity.
Defined.

(** The pass leaves the quoting post before the quoted one; the document
    has them in the order of their instants. *)
Example sorted_at_write_time :
  ∃ mid self' fs',
    add_tweets [Some quote_B] (init [Some quote_B]) = Ok mid
    ∧ map (λ x, elem_get x "id") (output_tweets mid) = [Some "300"; Some "100"]
    ∧ run [Some quote_B] = (Ok self', fs')
    ∧ map (λ x, elem_get x "id") (children (xml_root self'))
      = [Some "100"; Some "300"].
Proof.
  eexists _, _, _. split; [vm_compute; reflexivity|].
  split; [reflexivity|].
  split; [vm_compute; reflexivity|reflexivity].
Qed.

(** C4, the claim as stated fails: the one record [retweet_of_quote] has
    the [retweeted_status] [quote_B], found nowhere else in the input, and
    the document has two tweets, because [quote_B] quotes [post_S]. *)
Lemma retweet_of_quote_gives_two_tweets :
  field "retweeted_status" retweet_of_quote = Some quote_B
  ∧ ∃ self' fs',
      run [Some retweet_of_quote] = (Ok self', fs')
      ∧ map (λ x, elem_get x "id") (children (xml_root self'))
        = [Some "100"; Some "300"].
Proof.
  split; [reflexivity|]. eexists _, _.
  split; [vm_compute; reflexivity|reflexivity].
Qed.

(** C4, amended, on [retweet_R], a retweet of [post_S]. *)
Lemma retweet_gives_the_original_witness :
  ∃ self' fs',
    run [Some retweet_R] = (Ok self', fs')
    ∧ ∃ e, tweet_element post_S = Ok e ∧ children (xml_root self') = [e].
Proof.
  eexists _, _. split; [vm_compute; reflexivity|].
  eapply (proj2 (retweet_gives_the_original strptime_fixed tostring_ids)
            retweet_R post_S (KInt 200) (KInt 100) "tweets.xml" ∅);
    [reflexivity|reflexivity|reflexivity|discriminate|reflexivity|reflexivity|].
  vm_compute. reflexivity.
Defined.

(** C5, the claim as stated fails: [quote_of_retweet] quotes the record
    [retweet_R] of the input, whose [id_str] is "200"; the document has a
    tweet with [quoted_from] "200" and no tweet with [id] "200", because
    [retweet_R] is a retweet and only the post it retweets is written. *)
Lemma quoted_retweet_is_not_in_the_document :
  in_input [Some quote_of_retweet] retweet_R
  ∧ getitem retweet_R "id_str" = Ok (JStr "200")
  ∧ ∃ self' fs',
      run [Some quote_of_retweet] = (Ok self', fs')
      ∧ (∃ x, x ∈ children (xml_root self')
              ∧ elem_get x "quoted_from" = Some "200")
      ∧ ¬ ∃ y, y ∈ children (xml_root self') ∧ elem_get y "id" = Some "200".
Proof.
  split.
  { exists quote_of_retweet. split; [left|].
    eapply nested_quoted; [reflexivity|apply nested_here]. }
  split; [reflexivity|].
  eexists _, _. split; [vm_compute; reflexivity|].
  cbn [xml_root children]. split.
  - eexists. split; [apply list_elem_of_further, list_elem_of_here|reflexivity].
  - intros (y & Hy & Hid).
    repeat (apply elem_of_cons in Hy as [->|Hy]); [done..|].
    by apply elem_of_nil in Hy.
Qed.

(** C5, amended, on [quote_B], which quotes [post_S]. *)
Lemma quoted_post_is_in_the_document_witness :
  ∃ self' fs',
    run [Some quote_B] = (Ok self', fs')
    ∧ ∀ x q, x ∈ children (xml_root self') →
        elem_get x "quoted_from" = Some q →
        ∃ y, y ∈ children (xml_root self') ∧ elem_get y "id" = Some q.
Proof.
  eexists _, _. split; [vm_compute; reflexivity|].
  eapply (quoted_post_is_in_the_document strptime_fixed tostring_ids
            [Some quote_B] "tweets.xml" ∅).
  - vm_compute. reflexivity.
  - intros p quoted r k Hp Hrt Hq Hk Hr Hkr.
    apply in_input_one in Hp. apply in_input_one in Hr.
    one_of Hp.
    + vm_compute in Hq. injection Hq as <-.
      vm_compute in Hk. injection Hk as <-.
      one_of Hr.
      * vm_compute in Hkr. discriminate.
      * split; reflexivity.
    + vm_compute in Hq. discriminate.
Defined.

(** C6 on the truncated record. *)
Lemma content_follows_truncated_witness :
  ∃ self' fs',
    run [Some truncated_post] = (Ok self', fs')
    ∧ ∀ x, x ∈ children (xml_root self') →
        ∃ r, in_input [Some truncated_post] r ∧ tweet_element r = Ok x
             ∧ chosen_content r x.
Proof.
  eexists _, _. split; [vm_compute; reflexivity|].
  eapply (proj1 (content_follows_truncated strptime_fixed tostring_ids)
            [Some truncated_post] "tweets.xml" ∅).
  vm_compute. reflexivity.
Defined.

(** The words of the document written for the truncated record. *)
Example truncated_post_word_count :
  ∃ self' fs',
    run [Some truncated_post] = (Ok self', fs')
    ∧ map text (iter "body" (xml_root self')) = [Some "hello world foo"]
    ∧ word_count (xml_root self') = Ok 3%nat.
Proof.
  eexists _, _. split; [vm_compute; reflexivity|].
  split; reflexivity.
Qed.

(** C8, the claim as stated fails: the second call of [write_xml] on an
    instance finds the generator exhausted and reads no record; when it
    returns [output_tweets] is empty, and [tweet_ids] still holds the id of
    the first call: the set is not emptied at the start of the call. *)
Lemma seen_ids_survive_write_xml :
  ∃ self1 fs1 self2 fs2,
    run [Some post_S] = (Ok self1, fs1)
    ∧ write_xml strptime_fixed tostring_ids self1 "tweets.xml" fs1
      = (Ok self2, fs2)
    ∧ parsed_tweets self1 = []
    ∧ output_tweets self2 = []
    ∧ KInt 100 ∈ tweet_ids self2
    ∧ tweet_ids self2 ≠ ∅.
Proof.
  eexists _, _, _, _. split; [vm_compute; reflexivity|].
  split; [vm_compute; reflexivity|].
  split; [reflexivity|]. split; [reflexivity|].
  split; [apply (bool_decide_unpack _); vm_compute; exact I|].
  intros Hempty.
  assert (KInt 100 ∈ (∅ : gset key)) as Hin.
  { rewrite <- Hempty. apply (bool_decide_unpack _). vm_compute. exact I. }
  by apply not_elem_of_empty in Hin.
Qed.

(** C8, amended, on the instance left by a first call. *)
Lemma write_xml_resets_the_list_only_witness :
  parsed_tweets after_first = []
  ∧ write_xml strptime_fixed tostring_ids after_first "tweets.xml" old_files
    = (Ok (set_output_tweets after_first []),
       <["tweets.xml" := tostring_ids (xml_root after_first)]> old_files).
Proof.
  split; [reflexivity|].
  apply (proj2 (proj2 (write_xml_resets_the_list_only
                         strptime_fixed tostring_ids after_first))).
  reflexivity.
Defined.

(** C9, the claim as stated fails.  [quote_B] and [quoted_id_same_str] are
    two original posts with the ids 300 and 100 and the same [id_str]: the
    document has one tweet with that [id], the one of [quote_B], because the
    id 100 was seen when the post that [quote_B] quotes was added.
    [retweet_same_id] and [same_id_other_str] have the same id and another
    [id_str]: the first is a retweet, so that neither of the two gets a
    tweet, and the only tweet is the post that the first retweets. *)
Lemma same_id_str_gives_one_tweet :
  (id_key quote_B = Ok (KInt 300) ∧ id_key quoted_id_same_str = Ok (KInt 100)
   ∧ getitem quote_B "id_str" = Ok (JStr "300")
   ∧ getitem quoted_id_same_str "id_str" = Ok (JStr "300")
   ∧ is_retweet quote_B = false ∧ is_retweet quoted_id_same_str = false
   ∧ ∃ self' fs',
       run [Some quote_B; Some quoted_id_same_str] = (Ok self', fs')
       ∧ map (λ x, elem_get x "id") (children (xml_root self'))
         = [Some "100"; Some "300"]
       ∧ ∃ e1 e2,
           tweet_element quote_B = Ok e1
           ∧ tweet_element quoted_id_same_str = Ok e2
           ∧ e1 ∈ children (xml_root self')
           ∧ e2 ∉ children (xml_root self'))
  ∧ (id_key retweet_same_id = Ok (KInt 100)
     ∧ id_key same_id_other_str = Ok (KInt 100)
     ∧ getitem retweet_same_id "id_str" = Ok (JStr "100")
     ∧ getitem same_id_other_str "id_str" = Ok (JStr "101")
     ∧ ∃ self' fs',
         run [Some retweet_same_id; Some same_id_other_str] = (Ok self', fs')
         ∧ map (λ x, elem_get x "id") (children (xml_root self'))
           = [Some "50"]).
Proof.
  split.
  - split_and!; [reflexivity..|]. eexists _, _.
    split; [vm_compute; reflexivity|]. split; [reflexivity|].
    eexists _, _. split; [vm_compute; reflexivity|].
    split; [vm_compute; reflexivity|]. split.
    + vm_compute. apply list_elem_of_further, list_elem_of_here.
    + vm_compute.
      intros [H|[H|H%elem_of_nil]%elem_of_cons]%elem_of_cons;
        [discriminate H|discriminate H|done].
  - split_and!; [reflexivity..|]. eexists _, _.
    split; [vm_compute; reflexivity|reflexivity].
Qed.

(** C9, amended, on [post_S] followed by a record of the same id and
    another [id_str], and on [post_S] followed by an original post of
    another id and the same [id_str]. *)
Lemma dedup_is_by_id_not_id_str_witness :
  (∃ self' fs',
     run [Some post_S; Some same_id_other_str] = (Ok self', fs')
     ∧ ∃ e1,
         tweet_element post_S = Ok e1 ∧ children (xml_root self') = [e1])
  ∧ (∃ self' fs',
       run [Some post_S; Some other_id_same_str] = (Ok self', fs')
       ∧ ∃ e1 e2 i rest,
           tweet_element post_S = Ok e1
           ∧ tweet_element other_id_same_str = Ok e2
           ∧ elem_get e1 "id" = Some i ∧ elem_get e2 "id" = Some i
           ∧ children (xml_root self') ≡ₚ e1 :: e2 :: rest).
Proof.
  split.
  - eexists _, _. split; [vm_compute; reflexivity|].
    destruct (proj2 (proj2 (dedup_is_by_id_not_id_str strptime_fixed tostring_ids))
                post_S same_id_other_str (KInt 100) (KInt 100) "tweets.xml" ∅
                _ _ eq_refl eq_refl eq_refl eq_refl eq_refl)
      as (e1 & i1 & He1 & _ & _ & Hsame & _).
    exists e1. split; [exact He1|]. exact (Hsame eq_refl).
  - eexists _, _. split; [vm_compute; reflexivity|].
    destruct (proj2 (proj2 (dedup_is_by_id_not_id_str strptime_fixed tostring_ids))
                post_S other_id_same_str (KInt 100) (KInt 101) "tweets.xml" ∅
                _ _ eq_refl eq_refl eq_refl eq_refl eq_refl)
      as (e1 & i1 & He1 & Hi1 & _ & _ & Hother).
    destruct (Hother ltac:(discriminate) eq_refl eq_refl)
      as (e2 & rest & He2 & Hi2 & Hperm).
    exists e1, e2, i1, rest. split_and!; [exact He1|exact He2|exact Hi1|exact Hi2|exact Hperm].
Defined.

(** Two ids under one [id_str]: two tweets with the same [id]. *)
Example two_tweets_with_one_id :
  ∃ self' fs',
    run [Some post_S; Some other_id_same_str] = (Ok self', fs')
    ∧ map (λ x, elem_get x "id") (children (xml_root self'))
      = [Some "100"; Some "100"].
Proof.
  eexists _, _. split; [vm_compute; reflexivity|reflexivity].
Qed.

(** C10 on a first call for one record. *)
Lemma xml_root_is_never_reset_witness :
  ∃ self' fs',
    run [Some post_S] = (Ok self', fs')
    ∧ xml_root self' =
        Element "tweets" [] None ([] ++ output_tweets self')
    ∧ fs' !! "tweets.xml" = Some (tostring_ids (xml_root self'))
    ∧ ∀ output2 fs2,
        ∃ self2,
          write_xml strptime_fixed tostring_ids self' output2 fs2
            = (Ok self2, <[output2 := tostring_ids (xml_root self')]> fs2)
          ∧ xml_root self2 = xml_root self'.
Proof.
  eexists _, _. split; [vm_compute; reflexivity|].
  eapply (xml_root_is_never_reset strptime_fixed tostring_ids
            (init [Some post_S]) "tweets.xml" ∅).
  vm_compute. reflexivity.
Defined.

(** * Further properties of the builder *)

(** ** The pass, line by line *)

Lemma add_tweet_ignores_generator t : ignores_generator t.
Proof.
  induction t as [| | | | |kvs IH] using json_values_ind; try done.
  intros self g. rewrite !add_tweet_unfold.
  destruct (id_key (JObj kvs)) as [k|]; [|done]. cbn [mbind res_bind].
  change (tweet_ids (set_parsed_tweets self g)) with (tweet_ids self).
  destruct (decide (k ∈ tweet_ids self)); [done|]. cbn zeta.
  destruct (dict_get "retweeted_status" kvs) as [s|] eqn:Hs.
  { pose proof (dict_get_Forall ignores_generator _ _ _ IH Hs) as IHs.
    change (set_tweet_ids (set_parsed_tweets self g) ?ids)
      with (set_parsed_tweets (set_tweet_ids self ids) g).
    apply IHs. }
  destruct (tweet_attrs (JObj kvs)) as [e0|]; [|done]. cbn [mbind res_bind].
  destruct (dict_get "quoted_status" kvs) as [q|] eqn:Hq.
  - pose proof (dict_get_Forall ignores_generator _ _ _ IH Hq) as IHq.
    change (set_output_tweets (set_tweet_ids (set_parsed_tweets self g) ?ids) ?l)
      with (set_parsed_tweets (set_output_tweets (set_tweet_ids self ids) l) g).
    rewrite IHq.
    destruct (add_tweet q _) as [s3|]; [|done]. cbn [mbind res_bind].
    by destruct (tweet_content e0 (JObj kvs)).
  - cbn [mbind res_bind]. by destruct (tweet_content e0 (JObj kvs)).
Qed.

Lemma add_tweets_set_parsed_tweets lines self g :
  add_tweets lines (set_parsed_tweets self g) = add_tweets lines self.
Proof. by destruct lines as [|[t|] lines]. Qed.

Lemma add_tweets_cons t lines self :
  add_tweets (Some t :: lines) self = (s ← add_tweet t self; add_tweets lines s).
Proof.
  cbn [add_tweets]. rewrite add_tweet_ignores_generator.
  destruct (add_tweet t self) as [s|]; [|done]. cbn [mbind res_bind].
  apply add_tweets_set_parsed_tweets.
Qed.

Lemma add_tweets_app a b self :
  add_tweets (a ++ b) self = (s ← add_tweets a self; add_tweets b s).
Proof.
  revert self. induction a as [|[t|] a IH]; intros self.
  - cbn [app add_tweets mbind res_bind]. by rewrite add_tweets_set_parsed_tweets.
  - cbn [app]. rewrite !add_tweets_cons.
    destruct (add_tweet t self) as [s|]; [|done]. cbn [mbind res_bind].
    apply IH.
  - done.
Qed.

(** The ids of the lines that were read are in the set. *)
Lemma add_tweets_ids lines :
  ∀ self self' t k,
    add_tweets lines self = Ok self' → Some t ∈ lines → id_key t = Ok k →
    k ∈ tweet_ids self'.
Proof.
  induction lines as [|[t0|] lines IH]; intros self self' t k.
  - intros _ Hin. by apply elem_of_nil in Hin.
  - rewrite add_tweets_cons.
    destruct (add_tweet t0 self) as [s1|] eqn:Ht0; [|done].
    cbn [mbind res_bind]. intros Hrest [[= <-]|Hin]%elem_of_cons Hk.
    + destruct (add_tweet_added t _ _ Ht0) as [(k' & Hk' & Hin1) _].
      destruct (add_tweets_added _ _ _ Hrest) as [ms Hms].
      apply (added_mono _ _ _ _ Hms). simpl. congruence.
    + by eapply IH.
  - done.
Qed.

Lemma NoDup_length_size (l : list key) (X : gset key) :
  NoDup l → (∀ k, k ∈ l → k ∈ X) → (List.length l ≤ size X)%nat.
Proof.
  intros Hnd Hin. rewrite <- (size_list_to_set (C:=gset key) l Hnd).
  apply subseteq_size. intros k Hk. apply Hin. by apply elem_of_list_to_set in Hk.
Qed.

Lemma added_length U self self' ms :
  added U self self' ms →
  (List.length ms ≤ size (tweet_ids self' ∖ tweet_ids self))%nat.
Proof.
  intros []. rewrite <- (length_fmap made_key).
  apply NoDup_length_size; [done|].
  intros k (m & -> & Hm)%list_elem_of_fmap.
  apply elem_of_difference. split; auto.
Qed.

(** X1: a call of [add_tweet] that returns has only added: [xml_root] and
    the generator are as they were, no id has left [tweet_ids], the elements
    that [output_tweets] held are still its first elements, and no more
    elements were appended than ids were added. *)
Theorem add_tweet_only_appends t self self' :
  add_tweet t self = Ok self' →
  xml_root self' = xml_root self
  ∧ parsed_tweets self' = parsed_tweets self
  ∧ tweet_ids self ⊆ tweet_ids self'
  ∧ ∃ new, output_tweets self' = output_tweets self ++ new
           ∧ (List.length new ≤ size (tweet_ids self' ∖ tweet_ids self))%nat.
Proof.
  intros Hadd. destruct (add_tweet_added t _ _ Hadd) as [_ [ms Hms]].
  pose proof (added_length _ _ _ _ Hms) as Hlen.
  destruct Hms. split_and!; [done..|].
  exists (map made_elem ms). split; [done|]. by rewrite length_fmap.
Qed.

Section pass_properties.
Variable strptime : string → option Z.
Variable tostring : elem → string.

Lemma build_init lines :
  build strptime (init lines) =
    mid ← add_tweets lines (init []);
    sorted ← sort_output_tweets strptime (output_tweets mid);
    Ok (set_xml_root (set_output_tweets mid sorted)
          (foldl append (xml_root mid) sorted)).
Proof.
  unfold build. cbn zeta.
  change (parsed_tweets (set_output_tweets (init lines) [])) with lines.
  change (set_output_tweets (init lines) [])
    with (set_parsed_tweets (init []) lines).
  by rewrite add_tweets_set_parsed_tweets.
Qed.

(** The pass and the document of a new instance. *)
Lemma write_xml_init lines output fs self' fs' :
  write_xml strptime tostring (init lines) output fs = (Ok self', fs') →
  ∃ mid ms,
    add_tweets lines (init []) = Ok mid
    ∧ added (in_input lines) (init []) mid ms
    ∧ children (xml_root self') ≡ₚ output_tweets mid
    ∧ tweet_ids self' = tweet_ids mid
    ∧ parsed_tweets self' = [].
Proof.
  intros [Hbuild _]%write_xml_ok. rewrite build_init in Hbuild.
  destruct (add_tweets lines (init [])) as [mid|] eqn:Hmid; [|done].
  cbn [mbind res_bind] in Hbuild.
  destruct (sort_output_tweets strptime _) as [sorted|] eqn:Hsort; [|done].
  cbn [mbind res_bind] in Hbuild. injection Hbuild as <-.
  destruct (add_tweets_added _ _ _ Hmid) as [ms Hms].
  destruct (sort_output_tweets_ok _ _ _ Hsort) as [Hperm _].
  exists mid, ms. split_and!; [done|done| |done|].
  - cbn [xml_root set_xml_root]. rewrite foldl_append. cbn [children].
    rewrite (added_root _ _ _ _ Hms). by cbn.
  - cbn. by rewrite (added_parsed _ _ _ _ Hms).
Qed.

(** The state in which a line is read, and what becomes of its elements. *)
Lemma pass_at_line before t after mid :
  add_tweets (before ++ Some t :: after) (init []) = Ok mid →
  ∃ s1 s2,
    add_tweet t s1 = Ok s2
    ∧ (∀ k, k ∈ tweet_ids s1 → ∃ r, in_input before r ∧ id_key r = Ok k)
    ∧ (∀ e, e ∈ output_tweets s2 → e ∈ output_tweets mid).
Proof.
  rewrite add_tweets_app.
  destruct (add_tweets before (init [])) as [s1|] eqn:H1; [|done].
  cbn [mbind res_bind]. rewrite add_tweets_cons.
  destruct (add_tweet t s1) as [s2|] eqn:H2; [|done].
  cbn [mbind res_bind]. intros H3.
  destruct (add_tweets_added _ _ _ H1) as [ms1 Hms1].
  destruct (add_tweets_added _ _ _ H3) as [ms3 Hms3].
  exists s1, s2. split_and!; [done| |].
  - intros k Hk. destruct (added_seen _ _ _ _ Hms1 k Hk) as [Hk0|(r & ? & ? & _)].
    + by apply not_elem_of_empty in Hk0.
    + by exists r.
  - intros e He. rewrite (added_output _ _ _ _ Hms3). cbn.
    apply elem_of_app. by left.
Qed.

(** X2: after a build on a new instance every member of [tweet_ids] is the
    id of a record of the input, the id of every line is a member, the
    document has no more tweets than the set has members, and the generator
    is exhausted. *)
Theorem seen_ids_are_input_ids lines output fs self' fs' :
  write_xml strptime tostring (init lines) output fs = (Ok self', fs') →
  (∀ k, k ∈ tweet_ids self' → ∃ r, in_input lines r ∧ id_key r = Ok k)
  ∧ (∀ line, line ∈ lines →
       ∃ t k, line = Some t ∧ id_key t = Ok k ∧ k ∈ tweet_ids self')
  ∧ (List.length (children (xml_root self')) ≤ size (tweet_ids self'))%nat
  ∧ parsed_tweets self' = [].
Proof.
  intros Hw.
  destruct (write_xml_init _ _ _ _ _ Hw) as (mid & ms & Hmid & Hms & Hperm & -> & Hp).
  split_and!; [| | |done].
  - intros k Hk. destruct (added_seen _ _ _ _ Hms k Hk) as [Hk0|(r & ? & ? & _)].
    + by apply not_elem_of_empty in Hk0.
    + by exists r.
  - intros line Hline.
    pose proof (add_tweets_lines _ _ _ Hmid) as Hlines.
    rewrite Forall_forall in Hlines.
    destruct (Hlines _ Hline) as (t & s & s' & -> & Hadd).
    destruct (add_tweet_added t _ _ Hadd) as [(k & Hk & _) _].
    exists t, k. split_and!; [done..|]. by eapply add_tweets_ids.
  - rewrite Hperm, (added_output _ _ _ _ Hms). cbn. rewrite length_fmap.
    pose proof (added_length _ _ _ _ Hms) as Hlen.
    etrans; [exact Hlen|]. apply subseteq_size.
    by intros k [? _]%elem_of_difference.
Qed.

(** X3: a line whose record has the id of an earlier line changes nothing:
    the call of [write_xml] returns or raises the same, and writes the
    same, as without that line. *)
Theorem duplicate_line_is_ignored a t0 t b k output fs :
  Some t0 ∈ a → id_key t0 = Ok k → id_key t = Ok k →
  write_xml strptime tostring (init (a ++ Some t :: b)) output fs
  = write_xml strptime tostring (init (a ++ b)) output fs.
Proof.
  intros Hin Hk0 Hk. unfold write_xml. rewrite !build_init.
  rewrite !add_tweets_app.
  destruct (add_tweets a (init [])) as [s1|] eqn:H1; [|done].
  cbn [mbind res_bind]. rewrite add_tweets_cons.
  rewrite (add_tweet_seen t k); [done|done|].
  by eapply add_tweets_ids.
Qed.

(** The record that a call of [add_tweet] on [t] goes into: the
    [retweeted_status], or the [quoted_status] of a record that is not a
    retweet. *)
Lemma add_tweet_nested_original t n k kn self self' :
  add_tweet t self = Ok self' →
  id_key t = Ok k → k ∉ tweet_ids self → goes_into t n →
  is_retweet n = false → id_key n = Ok kn → kn ≠ k → kn ∉ tweet_ids self →
  ∃ e, tweet_element n = Ok e ∧ e ∈ output_tweets self'.
Proof.
  intros Hadd Hk Hnew Hn Hnrt Hkn Hne Hnnew.
  assert (kn ∉ {[k]} ∪ tweet_ids self) as Hnnew'.
  { by intros [?%elem_of_singleton|?]%elem_of_union. }
  destruct Hn as [Hrt|[Hnotrt Hq]].
  - rewrite (add_tweet_retweet t n k) in Hadd; [|done..].
    eapply add_tweet_original in Hadd as (e & ms & He & Hms);
      [|done|done|exact Hnnew'].
    exists e. split; [done|]. rewrite (added_output _ _ _ _ Hms). cbn.
    apply elem_of_app. right. left.
  - destruct t as [| | | | |kvs]; try done. cbn [field] in Hq.
    rewrite is_retweet_obj in Hnotrt. apply bool_decide_eq_false in Hnotrt.
    rewrite add_tweet_unfold, Hk in Hadd. cbn [mbind res_bind] in Hadd.
    destruct (decide _); [done|]. cbn zeta in Hadd.
    destruct (dict_get "retweeted_status" kvs) eqn:Hs.
    { destruct Hnotrt. by eexists. }
    destruct (tweet_attrs (JObj kvs)) as [e0|]; [|done].
    cbn [mbind res_bind] in Hadd. rewrite Hq in Hadd.
    destruct (add_tweet n _) as [s3|] eqn:Hnadd; [|done].
    cbn [mbind res_bind] in Hadd.
    destruct (tweet_content e0 (JObj kvs)) as [et|]; [|done].
    cbn [mbind res_bind] in Hadd. injection Hadd as <-.
    eapply add_tweet_original in Hnadd as (e & ms & He & Hms);
      [|done|done|exact Hnnew'].
    exists e. split; [done|]. cbn.
    rewrite (added_output _ _ _ _ Hms). cbn.
    rewrite <- (assoc_L (++)). cbn. rewrite insert_at_length.
    apply elem_of_app. right. right. left.
Qed.

Lemma add_tweet_nested_needs_id t n k self :
  id_key t = Ok k → k ∉ tweet_ids self → goes_into t n →
  is_raise (id_key n) → is_raise (add_tweet t self).
Proof.
  intros Hk Hnew Hn Hraise.
  destruct Hn as [Hrt|[Hnotrt Hq]].
  - rewrite (add_tweet_retweet t n k); [|done..]. by apply add_tweet_needs_id.
  - destruct t as [| | | | |kvs]; try done. cbn [field] in Hq.
    rewrite is_retweet_obj in Hnotrt. apply bool_decide_eq_false in Hnotrt.
    rewrite add_tweet_unfold, Hk. cbn [mbind res_bind].
    destruct (decide _); [done|]. cbn zeta.
    destruct (dict_get "retweeted_status" kvs) eqn:Hs.
    { destruct Hnotrt. by eexists. }
    destruct (tweet_attrs (JObj kvs)) as [e0|]; [|done].
    cbn [mbind res_bind]. rewrite Hq.
    pose proof (add_tweet_needs_id n
      (set_output_tweets (set_tweet_ids self ({[k]} ∪ tweet_ids self))
         (output_tweets (set_tweet_ids self ({[k]} ∪ tweet_ids self))
          ++ [new_element "tweet"])) Hraise) as Hr.
    by destruct (add_tweet n _).
Qed.

(** X4: what the header of the file promises.  In the document of a build
    that succeeds, a line that is an original post and whose id is the id of
    no record of the earlier lines has its element; and so has the original
    post that a line retweets or quotes, when its id is another one and is
    the id of no record of the earlier lines either. *)
Theorem posts_reach_the_document before t after k output fs self' fs' :
  write_xml strptime tostring (init (before ++ Some t :: after)) output fs
    = (Ok self', fs') →
  id_key t = Ok k →
  (∀ r, in_input before r → id_key r ≠ Ok k) →
  (is_retweet t = false →
     ∃ e, tweet_element t = Ok e ∧ e ∈ children (xml_root self'))
  ∧ (∀ n kn,
       goes_into t n → is_retweet n = false → id_key n = Ok kn → kn ≠ k →
       (∀ r, in_input before r → id_key r ≠ Ok kn) →
       ∃ e, tweet_element n = Ok e ∧ e ∈ children (xml_root self')).
Proof.
  intros Hw Hk Hnew.
  destruct (write_xml_init _ _ _ _ _ Hw) as (mid & ms & Hmid & _ & Hperm & _).
  destruct (pass_at_line _ _ _ _ Hmid) as (s1 & s2 & Hadd & Hids & Hkeep).
  assert (∀ k', (∀ r, in_input before r → id_key r ≠ Ok k') → k' ∉ tweet_ids s1)
    as Hfresh.
  { intros k' Hk' Hin. destruct (Hids k' Hin) as (r & Hr & Hrk). by apply (Hk' r). }
  split.
  - intros Hnotrt.
    destruct (add_tweet_original t k _ _ Hnotrt Hk (Hfresh k Hnew) Hadd)
      as (e & ms' & He & Hms').
    exists e. split; [done|]. rewrite Hperm. apply Hkeep.
    rewrite (added_output _ _ _ _ Hms'). cbn. apply elem_of_app. right. left.
  - intros n kn Hn Hnrt Hkn Hne Hnnew.
    destruct (add_tweet_nested_original t n k kn _ _ Hadd Hk (Hfresh k Hnew) Hn
                Hnrt Hkn Hne (Hfresh kn Hnnew)) as (e & He & Hin).
    exists e. split; [done|]. rewrite Hperm. by apply Hkeep.
Qed.

(** X5: nothing catches the exception of a nested call.  When a line whose
    id is the id of no record of the earlier lines retweets, or is an
    original post that quotes, a record without id, [write_xml] raises and
    writes nothing. *)
Theorem nested_error_is_fatal before t after n k output fs :
  id_key t = Ok k →
  (∀ r, in_input before r → id_key r ≠ Ok k) →
  goes_into t n → is_raise (id_key n) →
  ∃ e, write_xml strptime tostring (init (before ++ Some t :: after)) output fs
       = (Raise e, fs).
Proof.
  intros Hk Hnew Hn Hraise. unfold write_xml. rewrite build_init.
  destruct (add_tweets _ (init [])) as [mid|e] eqn:Hmid; [|by exists e].
  destruct (pass_at_line _ _ _ _ Hmid) as (s1 & s2 & Hadd & Hids & _).
  assert (k ∉ tweet_ids s1) as Hfresh.
  { intros Hin. destruct (Hids k Hin) as (r & Hr & Hrk). by apply (Hnew r). }
  pose proof (add_tweet_nested_needs_id t n k s1 Hk Hfresh Hn Hraise) as Hr.
  by rewrite Hadd in Hr.
Qed.
End pass_properties.

(** ** The elements that are built *)

Lemma utf8_ok v s : utf8 v = Ok s ↔ v = JStr s ∧ xml_string s = true.
Proof.
  unfold utf8, xml_string. destruct v as [| | |s'| |]; try (split; [done|by intros [? _]]).
  destruct (forallb xml_char (list_ascii_of_string s')) eqn:Hs.
  - split; [by intros [= <-]|]. by intros [[= <-] _].
  - split; [done|]. intros [[= <-] ?]. congruence.
Qed.

Lemma user_element_ok u e :
  user_element u = Ok e ↔
  ∃ sn i,
    getitem u "screen_name" = Ok (JStr sn) ∧ getitem u "id_str" = Ok (JStr i)
    ∧ xml_string sn = true ∧ xml_string i = true
    ∧ e = Element "user" [("screen_name", sn); ("id", i)] None [].
Proof.
  unfold user_element, elem_set. split.
  - destruct (getitem u "screen_name") as [v1|]; [|done]. cbn [mbind res_bind].
    destruct (utf8 v1) as [sn|] eqn:H1; [|done]. cbn [mbind res_bind].
    destruct (getitem u "id_str") as [v2|]; [|done]. cbn [mbind res_bind].
    destruct (utf8 v2) as [i|] eqn:H2; [|done]. cbn [mbind res_bind].
    apply utf8_ok in H1 as [-> ?]. apply utf8_ok in H2 as [-> ?].
    intros [= <-]. by exists sn, i.
  - intros (sn & i & -> & -> & Hsn & Hi & ->). cbn [mbind res_bind].
    rewrite (proj2 (utf8_ok (JStr sn) sn)) by done. cbn [mbind res_bind].
    rewrite (proj2 (utf8_ok (JStr i) i)) by done. done.
Qed.

Lemma add_user_unfold parent_elem user_dict :
  add_user parent_elem user_dict =
    user_elem ← user_element user_dict; Ok (append parent_elem user_elem).
Proof.
  unfold add_user, user_element.
  destruct (getitem user_dict "screen_name"); [|done]. cbn [mbind res_bind].
  destruct (elem_set _ "screen_name" _); [|done]. cbn [mbind res_bind].
  destruct (getitem user_dict "id_str"); [|done]. cbn [mbind res_bind].
  by destruct (elem_set _ "id" _).
Qed.

Lemma add_text_child_unfold t field parent_elem item :
  add_text_child t field parent_elem item =
    child ← text_element t field item; Ok (append parent_elem child).
Proof.
  unfold add_text_child, text_element.
  destruct (getitem item field); [|done]. cbn [mbind res_bind].
  by destruct (set_text _ _).
Qed.

(** A loop that appends one child per item. *)
Lemma for_each_append {A} (f : elem → A → res elem) (g : A → res elem) l :
  (∀ p x, f p x = (c ← g x; Ok (append p c))) →
  ∀ p e,
    for_each f l p = Ok e ↔
    ∃ cs, Forall2 (λ x c, g x = Ok c) l cs
          ∧ e = Element (tag p) (attrib p) (text p) (children p ++ cs).
Proof.
  intros Hf. induction l as [|x l IH]; intros p e; cbn [for_each].
  - split.
    + intros [= <-]. exists []. split; [constructor|].
      rewrite app_nil_r. by destruct p.
    + intros (cs & Hcs & ->). apply Forall2_nil_inv_l in Hcs as ->.
      rewrite app_nil_r. by destruct p.
  - rewrite Hf. split.
    + destruct (g x) as [c|] eqn:Hc; [|done]. cbn [mbind res_bind].
      intros (cs & Hcs & ->)%IH. exists (c :: cs). split; [by constructor|].
      cbn. by rewrite <- (assoc_L (++)).
    + intros (cs & Hcs & ->).
      apply Forall2_cons_inv_l in Hcs as (c & cs' & Hc & Hcs' & ->).
      rewrite Hc. cbn [mbind res_bind]. apply IH. exists cs'. split; [done|].
      cbn. by rewrite <- (assoc_L (++)).
Qed.

Lemma for_each_appended {A} (f : elem → A → res elem) (g : A → res elem) l p cs :
  (∀ p x, f p x = (c ← g x; Ok (append p c))) →
  Forall2 (λ x c, g x = Ok c) l cs →
  for_each f l p = Ok (Element (tag p) (attrib p) (text p) (children p ++ cs)).
Proof. intros Hf Hcs. apply (for_each_append f g l Hf). by exists cs. Qed.

(** X6: [add_user] returns exactly when [screen_name] and [id_str] are
    strings that lxml accepts, and then the parent has one more child, last:
    a <user> without text or children whose attributes are [screen_name]
    and [id], in this order; the rest of the parent is as it was. *)
Theorem add_user_appends_one_user parent_elem user_dict e :
  add_user parent_elem user_dict = Ok e ↔
  ∃ sn i,
    getitem user_dict "screen_name" = Ok (JStr sn)
    ∧ getitem user_dict "id_str" = Ok (JStr i)
    ∧ xml_string sn = true ∧ xml_string i = true
    ∧ e = Element (tag parent_elem) (attrib parent_elem) (text parent_elem)
            (children parent_elem
             ++ [Element "user" [("screen_name", sn); ("id", i)] None []]).
Proof.
  rewrite add_user_unfold. split.
  - destruct (user_element user_dict) as [ue|] eqn:Hue; [|done].
    apply user_element_ok in Hue as (sn & i & ? & ? & ? & ? & ->).
    intros [= <-]. by exists sn, i.
  - intros (sn & i & H1 & H2 & H3 & H4 & ->).
    rewrite (proj2 (user_element_ok user_dict
               (Element "user" [("screen_name", sn); ("id", i)] None [])));
      [done|]. by exists sn, i.
Qed.

Lemma details_of_ok author entities_dict d :
  details_of author entities_dict = Ok d ↔
  ∃ hs ms us a hes mes ues,
    items entities_dict "hashtags" = Ok hs
    ∧ items entities_dict "user_mentions" = Ok ms
    ∧ items entities_dict "urls" = Ok us
    ∧ user_element author = Ok a
    ∧ Forall2 (λ h c, text_element "hashtag" "text" h = Ok c) hs hes
    ∧ Forall2 (λ u c, user_element u = Ok c) ms mes
    ∧ Forall2 (λ u c, text_element "url" "expanded_url" u = Ok c) us ues
    ∧ d = Element "details" [] None
            (a :: hes ++ [Element "user_mentions" [] None mes] ++ ues).
Proof.
  unfold details_of, fill_details, items. rewrite add_user_unfold.
  pose proof (for_each_append (add_text_child "hashtag" "text")
                (text_element "hashtag" "text")) as Hhash.
  pose proof (for_each_append add_user user_element) as Hment.
  pose proof (for_each_append (add_text_child "url" "expanded_url")
                (text_element "url" "expanded_url")) as Hurl.
  split.
  - destruct (user_element author) as [a|]; [|done]. cbn [mbind res_bind].
    destruct (getitem entities_dict "hashtags") as [hv|]; [|done].
    cbn [mbind res_bind].
    destruct (py_iter hv) as [hs|]; [|done]. cbn [mbind res_bind].
    destruct (for_each _ hs _) as [d1|] eqn:H1; [|done]. cbn [mbind res_bind].
    apply Hhash in H1 as (hes & Hhes & ->);
      [|intros; apply add_text_child_unfold].
    destruct (getitem entities_dict "user_mentions") as [mv|]; [|done].
    cbn [mbind res_bind].
    destruct (py_iter mv) as [ms|]; [|done]. cbn [mbind res_bind].
    destruct (for_each add_user ms _) as [m1|] eqn:H2; [|done].
    cbn [mbind res_bind].
    apply Hment in H2 as (mes & Hmes & ->); [|intros; apply add_user_unfold].
    destruct (getitem entities_dict "urls") as [uv|]; [|done].
    cbn [mbind res_bind].
    destruct (py_iter uv) as [us|]; [|done]. cbn [mbind res_bind].
    intros H3.
    apply Hurl in H3 as (ues & Hues & ->);
      [|intros; apply add_text_child_unfold].
    exists hs, ms, us, a, hes, mes, ues. split_and!; try done.
    cbn. by rewrite <- !(assoc_L (++)).
  - intros (hs & ms & us & a & hes & mes & ues & H1 & H2 & H3 & Ha & Hh & Hm & Hu & ->).
    rewrite Ha. cbn [mbind res_bind].
    destruct (getitem entities_dict "hashtags") as [hv|]; [|done].
    cbn [mbind res_bind] in *. rewrite H1. cbn [mbind res_bind].
    rewrite (for_each_appended _ _ _ _ hes
               (add_text_child_unfold "hashtag" "text") Hh).
    cbn [mbind res_bind].
    destruct (getitem entities_dict "user_mentions") as [mv|]; [|done].
    cbn [mbind res_bind] in *. rewrite H2. cbn [mbind res_bind].
    rewrite (for_each_appended _ _ _ _ mes add_user_unfold Hm).
    cbn [mbind res_bind].
    destruct (getitem entities_dict "urls") as [uv|]; [|done].
    cbn [mbind res_bind] in *. rewrite H3. cbn [mbind res_bind].
    rewrite (for_each_appended _ _ _ _ ues
               (add_text_child_unfold "url" "expanded_url") Hu).
    cbn. by rewrite <- !(assoc_L (++)).
Qed.

(** X7: [add_details] returns exactly when the author and the three lists
    of the chosen entities can be read, and then the parent has one more
    child, last: a <details> that holds the author's <user>, one <hashtag>
    per hashtag, one <user_mentions> with one <user> per mention, and one
    <url> per url, in this order and in the order of the lists. *)
Theorem add_details_appends_details parent_elem tweet_dict e :
  add_details parent_elem tweet_dict = Ok e ↔
  ∃ author entities_dict hs ms us a hes mes ues,
    getitem tweet_dict "user" = Ok author
    ∧ tweet_entities tweet_dict = Ok entities_dict
    ∧ items entities_dict "hashtags" = Ok hs
    ∧ items entities_dict "user_mentions" = Ok ms
    ∧ items entities_dict "urls" = Ok us
    ∧ user_element author = Ok a
    ∧ Forall2 (λ h c, text_element "hashtag" "text" h = Ok c) hs hes
    ∧ Forall2 (λ u c, user_element u = Ok c) ms mes
    ∧ Forall2 (λ u c, text_element "url" "expanded_url" u = Ok c) us ues
    ∧ e = Element (tag parent_elem) (attrib parent_elem) (text parent_elem)
            (children parent_elem
             ++ [Element "details" [] None
                   (a :: hes ++ [Element "user_mentions" [] None mes] ++ ues)]).
Proof.
  rewrite add_details_unfold. split.
  - destruct (getitem tweet_dict "user") as [author|]; [|done].
    cbn [mbind res_bind].
    destruct (add_user _ author) as [d0|] eqn:Hd0; [|done]. cbn [mbind res_bind].
    destruct (tweet_entities tweet_dict) as [ents|]; [|done].
    cbn [mbind res_bind].
    destruct (fill_details d0 ents) as [d|] eqn:Hd; [|done]. cbn [mbind res_bind].
    intros [= <-].
    assert (details_of author ents = Ok d) as Hdet.
    { unfold details_of. by rewrite Hd0. }
    apply details_of_ok in Hdet
      as (hs & ms & us & a & hes & mes & ues & ? & ? & ? & ? & ? & ? & ? & ->).
    by exists author, ents, hs, ms, us, a, hes, mes, ues.
  - intros (author & ents & hs & ms & us & a & hes & mes & ues
            & -> & -> & H1 & H2 & H3 & Ha & Hh & Hm & Hu & ->).
    cbn [mbind res_bind].
    assert (details_of author ents
            = Ok (Element "details" [] None
                    (a :: hes ++ [Element "user_mentions" [] None mes] ++ ues)))
      as Hdet.
    { apply details_of_ok. by exists hs, ms, us, a, hes, mes, ues. }
    unfold details_of in Hdet.
    destruct (add_user _ author) as [d0|]; [|done]. cbn [mbind res_bind] in *.
    by rewrite Hdet.
Qed.

Lemma user_element_is_user u e : user_element u = Ok e → is_user e.
Proof. intros (sn & i & _ & _ & _ & _ & ->)%user_element_ok. done. Qed.

Lemma set_text_leaf t v e : set_text (new_element t) v = Ok e → is_leaf t e.
Proof.
  unfold set_text. destruct v; try done; try by intros [= <-].
  cbn [utf8]. destruct (forallb _ _); [|done]. by intros [= <-].
Qed.

Lemma text_element_leaf t field item e :
  text_element t field item = Ok e → is_leaf t e.
Proof.
  unfold text_element. destruct (getitem item field); [|done].
  apply set_text_leaf.
Qed.

Lemma details_of_is_details author entities_dict d :
  details_of author entities_dict = Ok d → is_details d.
Proof.
  intros (hs & ms & us & a & hes & mes & ues & _ & _ & _ & Ha & Hh & Hm & Hu & ->)
    %details_of_ok.
  split_and!; [done..|]. exists a, hes, mes, ues. split_and!; [done|..].
  - by eapply user_element_is_user.
  - clear -Hh. induction Hh; constructor; [by eapply text_element_leaf|done].
  - clear -Hm. induction Hm; constructor; [by eapply user_element_is_user|done].
  - clear -Hu. induction Hu; constructor; [by eapply text_element_leaf|done].
Qed.

Lemma tweet_attrs_names t e0 :
  tweet_attrs t = Ok e0 →
  map fst (attrib e0)
  = if field "quoted_status" t is Some _
    then ["id"; "created_at"; "quoted_from"] else ["id"; "created_at"].
Proof.
  unfold tweet_attrs, elem_set.
  destruct (getitem t "id_str") as [v1|]; [|done]. cbn [mbind res_bind].
  destruct (utf8 v1) as [i|]; [|done]. cbn [mbind res_bind].
  destruct (getitem t "created_at") as [v2|]; [|done]. cbn [mbind res_bind].
  destruct (utf8 v2) as [s|]; [|done]. cbn [mbind res_bind].
  destruct (field "quoted_status" t) as [quoted|]; [|by intros [= <-]].
  destruct (getitem quoted "id_str") as [v3|]; [|done]. cbn [mbind res_bind].
  destruct (utf8 v3) as [q|]; [|done]. cbn [mbind res_bind].
  by intros [= <-].
Qed.

Lemma tweet_element_is_tweet t e : tweet_element t = Ok e → is_tweet e.
Proof.
  intros He.
  destruct (tweet_element_ok _ _ He)
    as (e0 & tr & author & body & details & He0 & Htag & Hattr & Htext & Hch
        & _ & _ & Hsel).
  destruct (tweet_attrs_ok _ _ He0) as (Htag0 & Htext0 & _).
  pose proof (tweet_attrs_names _ _ He0) as Hnames.
  split_and!; [congruence|congruence| |].
  - rewrite Hattr, Hnames. destruct (field "quoted_status" t); auto.
  - exists body, details. split; [done|].
    destruct (truthy tr).
    + destruct Hsel as (? & ? & ? & _ & _ & _ & Hb & Hd).
      split; [by eapply set_text_leaf|by eapply details_of_is_details].
    + destruct Hsel as (? & ? & _ & _ & Hb & Hd).
      split; [by eapply set_text_leaf|by eapply details_of_is_details].
Qed.

Section document_shape.
Variable strptime : string → option Z.
Variable tostring : elem → string.

(** X8: the document of a build on a new instance.  The root is <tweets>,
    without attributes or text; each of its children is a <tweet> without
    text, with the attributes [id], [created_at] and, for a post that
    quotes, [quoted_from], in this order, and with two children: a <body>
    without attributes or children, and a <details> of an author <user>,
    <hashtag> elements, one <user_mentions> of <user> elements, and <url>
    elements. *)
Theorem document_has_the_schema lines output fs self' fs' :
  write_xml strptime tostring (init lines) output fs = (Ok self', fs') →
  tag (xml_root self') = "tweets" ∧ attrib (xml_root self') = []
  ∧ text (xml_root self') = None
  ∧ Forall is_tweet (children (xml_root self')).
Proof.
  intros Hw.
  destruct (write_xml_fresh _ _ _ _ _ _ _ Hw) as (ms & Hms & -> & _).
  split_and!; [done..|]. cbn [children].
  apply Forall_fmap. eapply Forall_impl; [apply (added_ok _ _ _ _ Hms)|].
  intros m (He & _). by eapply tweet_element_is_tweet.
Qed.
End document_shape.

(** ** The order of tweets with the same instant *)

Lemma filter_decorated (f : elem → option Z) (d : list (Z * elem)) t :
  Forall (λ p, f p.2 = Some p.1) d →
  map snd (filter (λ p, p.1 = t) d) = filter (λ x, f x = Some t) (map snd d).
Proof.
  induction 1 as [|p d Hp _ IH]; [done|].
  rewrite filter_cons. cbn [map]. rewrite filter_cons.
  destruct (decide (p.1 = t)) as [Ht|Ht].
  - rewrite decide_True by congruence. cbn. by rewrite IH.
  - rewrite decide_False by congruence. done.
Qed.

Section stability.
Variable strptime : string → option Z.
Variable tostring : elem → string.

Lemma decorate_times l d :
  decorate strptime l = Ok d →
  map snd d = l ∧ Forall (λ p, created_at_time strptime p.2 = Some p.1) d.
Proof.
  revert d. induction l as [|x l IH]; cbn [decorate]; intros d.
  { intros [= <-]. by split. }
  destruct (sort_key strptime x) as [t|] eqn:Ht; [|done]. cbn [mbind res_bind].
  destruct (decorate strptime l) as [d'|]; [|done]. cbn [mbind res_bind].
  intros [= <-]. destruct (IH d' eq_refl) as [Hl Hall].
  split; [cbn; by rewrite Hl|]. constructor; [|done]. by apply sort_key_time.
Qed.

(** X9: the sort of line 28 is stable.  In the document of a build on a
    new instance, the tweets whose [created_at] stand for the same instant
    are in the order in which the pass created them. *)
Theorem same_instant_keeps_pass_order lines output fs self' fs' :
  write_xml strptime tostring (init lines) output fs = (Ok self', fs') →
  ∃ mid,
    add_tweets lines (init lines) = Ok mid
    ∧ ∀ t,
        filter (λ x, created_at_time strptime x = Some t)
          (children (xml_root self'))
        = filter (λ x, created_at_time strptime x = Some t) (output_tweets mid).
Proof.
  intros [Hbuild _]%write_xml_ok.
  destruct (build_ok _ _ _ Hbuild) as (_ & _ & _ & _ & _ & _ & Hroot).
  destruct (build_steps _ _ _ Hbuild) as (mid & Hmid & Hsort).
  exists mid. split; [done|]. intros t.
  rewrite Hroot. cbn [children init xml_root new_element app].
  unfold sort_output_tweets in Hsort.
  destruct (decorate strptime (output_tweets mid)) as [d|] eqn:Hd; [|done].
  cbn [mbind res_bind] in Hsort. injection Hsort as <-.
  destruct (decorate_times _ _ Hd) as [Hl Hall].
  rewrite <- Hl.
  rewrite <- !(filter_decorated (created_at_time strptime)); [|done|].
  - f_equal. apply stable_sort_stable.
  - by rewrite stable_sort_perm.
Qed.
End stability.

(** ** word_count.py, element by element *)

Lemma iter_element t tg a x cs :
  iter t (Element tg a x cs)
  = (if decide (tg = t) then [Element tg a x cs] else [])
    ++ List.concat (map (iter t) cs).
Proof.
  unfold iter at 1. cbn [iter_all]. rewrite filter_cons. cbn [tag].
  assert (filter (λ x0, tag x0 = t) (List.concat (map iter_all cs))
          = List.concat (map (iter t) cs)) as ->.
  { induction cs as [|c cs IH]; [done|].
    cbn [map List.concat]. by rewrite filter_app, IH. }
  by destruct (decide (tg = t)).
Qed.

Lemma yield_all_app l1 l2 :
  yield_all (l1 ++ l2)
  = (n1 ← yield_all l1; n2 ← yield_all l2; Ok (n1 ++ n2)).
Proof.
  induction l1 as [|b l1 IH]; cbn [app yield_all mbind res_bind].
  - by destruct (yield_all l2).
  - destruct (yield_len b); [|done]. cbn [mbind res_bind]. rewrite IH.
    destruct (yield_all l1); [|done]. cbn [mbind res_bind].
    by destruct (yield_all l2).
Qed.

Lemma foldr_add_app l1 l2 :
  foldr Nat.add 0%nat (l1 ++ l2)
  = (foldr Nat.add 0%nat l1 + foldr Nat.add 0%nat l2)%nat.
Proof. induction l1 as [|n l1 IH]; cbn; [done|]. rewrite IH. lia. Qed.

Lemma word_count_ok tree n :
  word_count tree = Ok n ↔
  ∃ ns, count_words tree = Ok ns ∧ n = foldr Nat.add 0%nat ns.
Proof.
  unfold word_count. destruct (count_words tree) as [ns|]; cbn [mbind res_bind].
  - split; [intros [= <-]; by exists ns|]. by intros (ns' & [= <-] & ->).
  - split; [done|]. by intros (? & ? & _).
Qed.

Lemma word_count_raise tree :
  is_raise (word_count tree) ↔ is_raise (count_words tree).
Proof. unfold word_count. by destruct (count_words tree). Qed.

(** The words of the descendants, child by child. *)
Lemma yield_all_children cs ns :
  Forall2 (λ c n, word_count c = Ok n) cs ns →
  ∃ counts, yield_all (List.concat (map (iter "body") cs)) = Ok counts
            ∧ foldr Nat.add 0%nat counts = foldr Nat.add 0%nat ns.
Proof.
  induction 1 as [|c n cs ns Hc _ (counts & Hcounts & Hsum)].
  { by exists []. }
  apply word_count_ok in Hc as (nc & Hnc & ->).
  exists (nc ++ counts). cbn [map List.concat]. rewrite yield_all_app.
  unfold count_words in Hnc. rewrite Hnc, Hcounts. split; [done|].
  rewrite foldr_add_app. cbn. by rewrite Hsum.
Qed.

Lemma yield_all_children_raise cs c :
  c ∈ cs → is_raise (word_count c) →
  is_raise (yield_all (List.concat (map (iter "body") cs))).
Proof.
  intros Hin Hraise. apply word_count_raise in Hraise. unfold count_words in Hraise.
  induction Hin as [c cs|c c' cs _ IH]; cbn [map List.concat];
    rewrite yield_all_app.
  - by destruct (yield_all (iter "body" c)).
  - destruct (yield_all (iter "body" c')); [|done]. cbn [mbind res_bind].
    specialize (IH Hraise). by destruct (yield_all (List.concat _)).
Qed.

(** X10: the total of an element from the totals of its children.  An
    element that is not a <body> counts the sum of its children; a <body>
    with a text counts the words of the text and its children; a <body>
    without text raises, and so does every element with a child that
    raises. *)
Theorem word_count_by_children tg a x cs :
  (∀ ns, Forall2 (λ c n, word_count c = Ok n) cs ns →
     (tg ≠ "body" →
        word_count (Element tg a x cs) = Ok (foldr Nat.add 0%nat ns))
     ∧ (∀ s, tg = "body" → x = Some s →
          word_count (Element tg a x cs)
          = Ok (List.length (split s) + foldr Nat.add 0%nat ns)%nat))
  ∧ (tg = "body" → x = None →
       word_count (Element tg a x cs) = Raise AttributeError)
  ∧ (∀ c, c ∈ cs → is_raise (word_count c) →
       is_raise (word_count (Element tg a x cs))).
Proof.
  split_and!.
  - intros ns Hns. destruct (yield_all_children _ _ Hns) as (counts & Hc & Hsum).
    split.
    + intros Hne. unfold word_count, count_words. rewrite iter_element.
      rewrite decide_False by done. cbn [app]. rewrite Hc. cbn. by rewrite Hsum.
    + intros s -> ->. unfold word_count, count_words. rewrite iter_element.
      rewrite decide_True by done. cbn [app yield_all yield_len text].
      cbn [mbind res_bind]. rewrite Hc. cbn. by rewrite Hsum.
  - intros -> ->. unfold word_count, count_words. rewrite iter_element.
    rewrite decide_True by done. done.
  - intros c Hin Hraise. apply word_count_raise. unfold count_words.
    rewrite iter_element.
    pose proof (yield_all_children_raise _ _ Hin Hraise) as Hr.
    destruct (decide (tg = "body")); cbn [app yield_all].
    + destruct (yield_len _); [|done]. cbn [mbind res_bind].
      by destruct (yield_all _).
    + done.
Qed.

Lemma iter_leaf t tg e : is_leaf tg e → tg ≠ t → iter t e = [].
Proof.
  destruct e as [tg' a x cs]. intros (Htag & _ & Hcs) Hne. cbn [tag attrib text children] in *. subst.
  rewrite iter_element. by rewrite decide_False.
Qed.

Lemma iter_user t e : is_user e → t ≠ "user" → iter t e = [].
Proof.
  destruct e as [tg' a x cs]. intros (Htag & _ & _ & Hcs) Hne. cbn [tag attrib text children] in *. subst.
  rewrite iter_element. by rewrite decide_False.
Qed.

Lemma iter_none t (l : list elem) :
  Forall (λ e, iter t e = []) l → List.concat (map (iter t) l) = [].
Proof. induction 1 as [|e l He _ IH]; [done|]. cbn. by rewrite He, IH. Qed.

(** No <body> under a <details>. *)
Lemma iter_body_details d : is_details d → iter "body" d = [].
Proof.
  destruct d as [tg a x cs].
  intros (Htag & _ & _ & au & hs & ms & us & Hcs & Hau & Hhs & Hms & Hus).
  cbn [tag attrib text children] in *. subst. rewrite iter_element. rewrite decide_False by done.
  cbn [app map List.concat]. rewrite (iter_user _ _ Hau) by done.
  rewrite !map_app, !concat_app. cbn [map List.concat app].
  rewrite iter_element, decide_False by done.
  rewrite !iter_none; [done|..].
  - eapply Forall_impl; [exact Hus|]. intros e He. by eapply iter_leaf.
  - eapply Forall_impl; [exact Hms|]. intros e He. by eapply iter_user.
  - eapply Forall_impl; [exact Hhs|]. intros e He. by eapply iter_leaf.
Qed.

(** The one <body> of a <tweet>. *)
Lemma iter_body_tweet x :
  is_tweet x → ∃ body details, children x = [body; details] ∧ iter "body" x = [body].
Proof.
  destruct x as [tg a tx cs].
  intros (Htag & _ & _ & body & details & Hcs & Hbody & Hdetails).
  cbn [tag attrib text children] in *. subst. exists body, details. split; [done|].
  rewrite iter_element, decide_False by done.
  cbn [app map List.concat]. rewrite (iter_body_details _ Hdetails).
  destruct body as [tb ab xb cb]. destruct Hbody as (Htb & _ & Hcb).
  cbn [tag attrib text children] in *. subst. rewrite iter_element, decide_True by done. done.
Qed.

(** The text of the <body> is the effective text of the record. *)
Lemma tweet_element_body r x :
  tweet_element r = Ok x →
  ∃ v body details,
    tweet_text r = Ok v ∧ children x = [body; details]
    ∧ set_text (new_element "body") v = Ok body.
Proof.
  intros Hx.
  destruct (tweet_element_ok _ _ Hx)
    as (e0 & tr & author & body & details & _ & _ & _ & _ & Hch & Htr & _ & Hsel).
  unfold tweet_text. rewrite Htr. cbn [mbind res_bind].
  destruct (truthy tr).
  - destruct Hsel as (ext & ft & ents & Hext & Hft & _ & Hb & _).
    exists ft, body, details. rewrite Hext. cbn [mbind res_bind]. by rewrite Hft.
  - destruct Hsel as (txt & ents & Htxt & _ & Hb & _).
    exists txt, body, details. by rewrite Htxt.
Qed.

Lemma tweet_counts_its_text_aux r x :
  tweet_element r = Ok x →
  (∀ s, tweet_text r = Ok (JStr s) →
     word_count x = Ok (List.length (split s)))
  ∧ (tweet_text r = Ok JNull → word_count x = Raise AttributeError).
Proof.
  intros Hx.
  destruct (tweet_element_body _ _ Hx) as (v & body & details & Hv & Hch & Hbody).
  destruct (iter_body_tweet x (tweet_element_is_tweet _ _ Hx))
    as (body' & details' & Hch' & Hiter).
  assert (body' = body) as -> by congruence.
  unfold word_count, count_words. rewrite Hiter. cbn [yield_all yield_len].
  split.
  - intros s Hs. assert (v = JStr s) as -> by congruence.
    unfold set_text in Hbody. cbn [utf8] in Hbody.
    destruct (forallb _ _); [|done]. cbn [mbind res_bind] in Hbody.
    injection Hbody as <-. cbn. by rewrite Nat.add_0_r.
  - intros Hnull. assert (v = JNull) as -> by congruence.
    injection Hbody as <-. done.
Qed.

(** X11: the builder and the counter on one tweet.  On the <tweet> made for
    a record, [count_words] finds one <body>: when the effective text of
    the record is a string the total is the number of its words (hashtags,
    urls and names are not counted); when it is null the <body> has no text
    and the count raises. *)
Theorem tweet_counts_its_text r x :
  tweet_element r = Ok x →
  (∀ s, tweet_text r = Ok (JStr s) →
     word_count x = Ok (List.length (split s)))
  ∧ (tweet_text r = Ok JNull → word_count x = Raise AttributeError).
Proof. apply tweet_counts_its_text_aux. Qed.

Section document_words.
Variable strptime : string → option Z.
Variable tostring : elem → string.

Lemma yield_all_bodies (xs : list elem) ns :
  Forall2 (λ x n, word_count x = Ok n) xs ns →
  word_count (Element "tweets" [] None xs) = Ok (foldr Nat.add 0%nat ns).
Proof.
  intros Hns. destruct (yield_all_children _ _ Hns) as (counts & Hc & Hsum).
  unfold word_count, count_words. rewrite iter_element, decide_False by done.
  cbn [app]. rewrite Hc. cbn. by rewrite Hsum.
Qed.

(** X12: the builder and the counter on the document.  When no record of
    the input has a null effective text, [count_words] on the tree that
    [xml_root] holds after [write_xml] gives, tweet by tweet, the number of
    words of the effective text of the record the tweet was made from, and
    the total is their sum. *)
Theorem document_counts_the_texts lines output fs self' fs' :
  write_xml strptime tostring (init lines) output fs = (Ok self', fs') →
  (∀ r, in_input lines r → tweet_text r ≠ Ok JNull) →
  ∃ ns,
    word_count (xml_root self') = Ok (foldr Nat.add 0%nat ns)
    ∧ Forall2 (λ x n, ∃ r s, in_input lines r ∧ tweet_element r = Ok x
                             ∧ tweet_text r = Ok (JStr s)
                             ∧ n = List.length (split s))
        (children (xml_root self')) ns.
Proof.
  intros Hw Hnonnull.
  destruct (write_xml_fresh _ _ _ _ _ _ _ Hw) as (ms & Hms & -> & _).
  cbn [children].
  assert (∃ ns, Forall2 (λ x n, ∃ r s, in_input lines r ∧ tweet_element r = Ok x
                                       ∧ tweet_text r = Ok (JStr s)
                                       ∧ n = List.length (split s))
                  (map made_elem ms) ns) as (ns & Hns).
  { pose proof (added_ok _ _ _ _ Hms) as Hok. clear Hms.
    induction Hok as [|m ms (He & _ & _ & HU) _ (ns & Hns)]; [by exists []|].
    destruct (tweet_element_body _ _ He) as (v & body & details & Hv & _ & Hb).
    destruct v as [| | |s| |]; try done.
    { by destruct (Hnonnull _ HU). }
    exists (List.length (split s) :: ns). constructor; [|done].
    by exists (made_from m), s. }
  exists ns. split; [|done].
  apply yield_all_bodies.
  eapply Forall2_impl; [exact Hns|].
  intros x n (r & s & _ & Hx & Hs & ->).
  by apply (proj1 (tweet_counts_its_text_aux r x Hx)).
Qed.
End document_words.

(** ** The further properties on the records of the examples *)

(** X1 on a post that quotes another one. *)
Lemma add_tweet_only_appends_witness :
  ∃ self',
    add_tweet quote_B (init []) = Ok self'
    ∧ xml_root self' = xml_root (init [])
    ∧ parsed_tweets self' = parsed_tweets (init [])
    ∧ tweet_ids (init []) ⊆ tweet_ids self'
    ∧ ∃ new, output_tweets self' = output_tweets (init []) ++ new
             ∧ (List.length new
                ≤ size (tweet_ids self' ∖ tweet_ids (init [])))%nat.
Proof.
  eexists. split; [vm_compute; reflexivity|].
  apply (add_tweet_only_appends quote_B (init [])).
  vm_compute. reflexivity.
Defined.

(** X2 on three lines. *)
Lemma seen_ids_are_input_ids_witness :
  ∃ self' fs',
    run [Some quote_B; Some post_S; Some retweet_R] = (Ok self', fs')
    ∧ (∀ k, k ∈ tweet_ids self' →
         ∃ r, in_input [Some quote_B; Some post_S; Some retweet_R] r
              ∧ id_key r = Ok k)
    ∧ (∀ line, line ∈ [Some quote_B; Some post_S; Some retweet_R] →
         ∃ t k, line = Some t ∧ id_key t = Ok k ∧ k ∈ tweet_ids self')
    ∧ (List.length (children (xml_root self')) ≤ size (tweet_ids self'))%nat
    ∧ parsed_tweets self' = [].
Proof.
  eexists _, _. split; [vm_compute; reflexivity|].
  eapply (seen_ids_are_input_ids strptime_fixed tostring_ids
            [Some quote_B; Some post_S; Some retweet_R] "tweets.xml" ∅).
  vm_compute. reflexivity.
Defined.

(** X3 on a second line with the id of the first. *)
Lemma duplicate_line_is_ignored_witness :
  write_xml strptime_fixed tostring_ids
    (init ([Some post_S] ++ Some same_id_other_str :: [Some quote_B]))
    "tweets.xml" old_files
  = write_xml strptime_fixed tostring_ids
      (init ([Some post_S] ++ [Some quote_B])) "tweets.xml" old_files.
Proof.
  apply (duplicate_line_is_ignored strptime_fixed tostring_ids
           [Some post_S] post_S same_id_other_str [Some quote_B] (KInt 100));
    [apply list_elem_of_here|reflexivity|reflexivity].
Defined.

(** X4 on a post that quotes a later line. *)
Lemma posts_reach_the_document_witness :
  ∃ self' fs',
    run ([Some truncated_post] ++ Some quote_B :: [Some post_S]) = (Ok self', fs')
    ∧ (is_retweet quote_B = false →
         ∃ e, tweet_element quote_B = Ok e ∧ e ∈ children (xml_root self'))
    ∧ (∀ n kn,
         goes_into quote_B n → is_retweet n = false → id_key n = Ok kn →
         kn ≠ KInt 300 →
         (∀ r, in_input [Some truncated_post] r → id_key r ≠ Ok kn) →
         ∃ e, tweet_element n = Ok e ∧ e ∈ children (xml_root self')).
Proof.
  eexists _, _. split; [vm_compute; reflexivity|].
  eapply (posts_reach_the_document strptime_fixed tostring_ids
            [Some truncated_post] quote_B [Some post_S] (KInt 300)
            "tweets.xml" ∅).
  - vm_compute. reflexivity.
  - reflexivity.
  - intros r Hr%in_input_one. one_of Hr. vm_compute. discriminate.
Defined.

(** X5 on a post that quotes a record without id. *)
Lemma nested_error_is_fatal_witness :
  ∃ e,
    write_xml strptime_fixed tostring_ids
      (init ([Some post_S] ++ Some quote_of_no_id :: [])) "tweets.xml" old_files
    = (Raise e, old_files).
Proof.
  apply (nested_error_is_fatal strptime_fixed tostring_ids
           [Some post_S] quote_of_no_id [] no_id (KInt 800)).
  - reflexivity.
  - intros r Hr%in_input_one. one_of Hr. vm_compute. discriminate.
  - right. split; reflexivity.
  - vm_compute. exact I.
Defined.

(** X6 on the author of the examples. *)
Lemma add_user_appends_one_user_witness :
  ∃ sn i,
    getitem alice "screen_name" = Ok (JStr sn)
    ∧ getitem alice "id_str" = Ok (JStr i)
    ∧ xml_string sn = true ∧ xml_string i = true
    ∧ Element "details" [] None
        [Element "user" [("screen_name", "alice"); ("id", "11")] None []]
      = Element (tag (new_element "details")) (attrib (new_element "details"))
          (text (new_element "details"))
          (children (new_element "details")
           ++ [Element "user" [("screen_name", sn); ("id", i)] None []]).
Proof.
  apply (proj1 (add_user_appends_one_user (new_element "details") alice _)).
  reflexivity.
Defined.

(** X7 on the truncated record. *)
Lemma add_details_appends_details_witness :
  ∃ e,
    add_details (new_element "tweet") truncated_post = Ok e
    ∧ ∃ author entities_dict hs ms us a hes mes ues,
        getitem truncated_post "user" = Ok author
        ∧ tweet_entities truncated_post = Ok entities_dict
        ∧ items entities_dict "hashtags" = Ok hs
        ∧ items entities_dict "user_mentions" = Ok ms
        ∧ items entities_dict "urls" = Ok us
        ∧ user_element author = Ok a
        ∧ Forall2 (λ h c, text_element "hashtag" "text" h = Ok c) hs hes
        ∧ Forall2 (λ u c, user_element u = Ok c) ms mes
        ∧ Forall2 (λ u c, text_element "url" "expanded_url" u = Ok c) us ues
        ∧ e = Element (tag (new_element "tweet")) (attrib (new_element "tweet"))
                (text (new_element "tweet"))
                (children (new_element "tweet")
                 ++ [Element "details" [] None
                       (a :: hes ++ [Element "user_mentions" [] None mes] ++ ues)]).
Proof.
  eexists. split; [vm_compute; reflexivity|].
  apply (proj1 (add_details_appends_details (new_element "tweet") truncated_post _)).
  vm_compute. reflexivity.
Defined.

(** X8 on three lines. *)
Lemma document_has_the_schema_witness :
  ∃ self' fs',
    run [Some quote_B; Some truncated_post; Some retweet_R] = (Ok self', fs')
    ∧ tag (xml_root self') = "tweets" ∧ attrib (xml_root self') = []
    ∧ text (xml_root self') = None
    ∧ Forall is_tweet (children (xml_root self')).
Proof.
  eexists _, _. split; [vm_compute; reflexivity|].
  eapply (document_has_the_schema strptime_fixed tostring_ids
            [Some quote_B; Some truncated_post; Some retweet_R] "tweets.xml" ∅).
  vm_compute. reflexivity.
Defined.

(** X9 on two posts of the same instant. *)
Lemma same_instant_keeps_pass_order_witness :
  ∃ self' fs',
    run [Some same_id_other_str; Some other_id_same_str] = (Ok self', fs')
    ∧ ∃ mid,
        add_tweets [Some same_id_other_str; Some other_id_same_str]
          (init [Some same_id_other_str; Some other_id_same_str]) = Ok mid
        ∧ ∀ t,
            filter (λ x, created_at_time strptime_fixed x = Some t)
              (children (xml_root self'))
            = filter (λ x, created_at_time strptime_fixed x = Some t)
                (output_tweets mid).
Proof.
  eexists _, _. split; [vm_compute; reflexivity|].
  eapply (same_instant_keeps_pass_order strptime_fixed tostring_ids
            [Some same_id_other_str; Some other_id_same_str] "tweets.xml" ∅).
  vm_compute. reflexivity.
Defined.

(** X10 on a document of two tweets. *)
Lemma word_count_by_children_witness :
  word_count (Element "tweets" [] None parsed_two_tweets)
  = Ok (foldr Nat.add 0%nat [3; 1]%nat).
Proof.
  apply (proj1 (proj1 (word_count_by_children "tweets" [] None parsed_two_tweets)
                  [3; 1]%nat ltac:(repeat constructor))).
  discriminate.
Defined.

(** X11 on the truncated record. *)
Lemma tweet_counts_its_text_witness :
  ∃ x, tweet_element truncated_post = Ok x ∧ word_count x = Ok 3%nat.
Proof.
  eexists. split; [vm_compute; reflexivity|].
  apply (proj1 (tweet_counts_its_text truncated_post _ eq_refl) "hello world foo").
  reflexivity.
Defined.

(** X12 on a post that quotes another one. *)
Lemma document_counts_the_texts_witness :
  ∃ self' fs',
    run [Some quote_B] = (Ok self', fs')
    ∧ ∃ ns,
        word_count (xml_root self') = Ok (foldr Nat.add 0%nat ns)
        ∧ Forall2 (λ x n, ∃ r s, in_input [Some quote_B] r
                                 ∧ tweet_element r = Ok x
                                 ∧ tweet_text r = Ok (JStr s)
                                 ∧ n = List.length (split s))
            (children (xml_root self')) ns.
Proof.
  eexists _, _. split; [vm_compute; reflexivity|].
  eapply (document_counts_the_texts strptime_fixed tostring_ids
            [Some quote_B] "tweets.xml" ∅).
  - vm_compute. reflexivity.
  - intros r Hr%in_input_one. one_of Hr; vm_compute; discriminate.
Defined.

(** ** The attributes of a tweet *)

Lemma tweet_attrs_exact t e0 :
  tweet_attrs t = Ok e0 →
  ∃ i s quoted_from,
    getitem t "id_str" = Ok (JStr i) ∧ getitem t "created_at" = Ok (JStr s)
    ∧ attrib e0 = ("id", i) :: ("created_at", s) :: quoted_from
    ∧ match field "quoted_status" t with
      | Some quoted =>
          ∃ q, getitem quoted "id_str" = Ok (JStr q)
               ∧ quoted_from = [("quoted_from", q)]
      | None => quoted_from = []
      end.
Proof.
  unfold tweet_attrs, elem_set.
  destruct (getitem t "id_str") as [v1|]; [|done]. cbn [mbind res_bind].
  destruct (utf8 v1) as [i|] eqn:H1; [|done]. cbn [mbind res_bind].
  apply utf8_ok in H1 as [-> _].
  destruct (getitem t "created_at") as [v2|]; [|done]. cbn [mbind res_bind].
  destruct (utf8 v2) as [s|] eqn:H2; [|done]. cbn [mbind res_bind].
  apply utf8_ok in H2 as [-> _].
  destruct (field "quoted_status" t) as [quoted|].
  - destruct (getitem quoted "id_str") as [v3|]; [|done]. cbn [mbind res_bind].
    destruct (utf8 v3) as [q|] eqn:H3; [|done]. cbn [mbind res_bind].
    apply utf8_ok in H3 as [-> _]. intros [= <-].
    exists i, s, [("quoted_from", q)]. split_and!; [done..|]. by exists q.
  - intros [= <-]. by exists i, s, [].
Qed.

Section document_attributes.
Variable strptime : string → option Z.
Variable tostring : elem → string.

(** X13: the attributes of the tweets of the document.  Each tweet was made
    from a record of the input; its attributes are [id], the [id_str] of the
    record, then [created_at], the [created_at] of the record, then, when
    and only when the record has a [quoted_status], [quoted_from], the
    [id_str] of the quoted record. *)
Theorem tweets_carry_the_record_fields lines output fs self' fs' :
  write_xml strptime tostring (init lines) output fs = (Ok self', fs') →
  ∀ x, x ∈ children (xml_root self') →
    ∃ r i s quoted_from,
      in_input lines r ∧ tweet_element r = Ok x
      ∧ getitem r "id_str" = Ok (JStr i)
      ∧ getitem r "created_at" = Ok (JStr s)
      ∧ attrib x = ("id", i) :: ("created_at", s) :: quoted_from
      ∧ match field "quoted_status" r with
        | Some quoted =>
            ∃ q, getitem quoted "id_str" = Ok (JStr q)
                 ∧ quoted_from = [("quoted_from", q)]
        | None => quoted_from = []
        end.
Proof.
  intros Hw x.
  destruct (write_xml_fresh _ _ _ _ _ _ _ Hw) as (ms & Hms & -> & _).
  cbn [children]. intros (m & -> & Hm)%list_elem_of_fmap.
  pose proof (added_ok _ _ _ _ Hms) as Hok. rewrite Forall_forall in Hok.
  destruct (Hok m Hm) as (He & _ & _ & HU).
  destruct (tweet_element_ok _ _ He) as (e0 & _ & _ & _ & _ & He0 & _ & Hattr & _).
  destruct (tweet_attrs_exact _ _ He0) as (i & s & qf & Hi & Hs & Ha & Hq).
  exists (made_from m), i, s, qf. split_and!; [done..|congruence|done].
Qed.
End document_attributes.

(** X13 on a post that quotes another one. *)
Lemma tweets_carry_the_record_fields_witness :
  ∃ self' fs',
    run [Some quote_B] = (Ok self', fs')
    ∧ ∀ x, x ∈ children (xml_root self') →
        ∃ r i s quoted_from,
          in_input [Some quote_B] r ∧ tweet_element r = Ok x
          ∧ getitem r "id_str" = Ok (JStr i)
          ∧ getitem r "created_at" = Ok (JStr s)
          ∧ attrib x = ("id", i) :: ("created_at", s) :: quoted_from
          ∧ match field "quoted_status" r with
            | Some quoted =>
                ∃ q, getitem quoted "id_str" = Ok (JStr q)
                     ∧ quoted_from = [("quoted_from", q)]
            | None => quoted_from = []
            end.
Proof.
  eexists _, _. split; [vm_compute; reflexivity|].
  eapply (tweets_carry_the_record_fields strptime_fixed tostring_ids
            [Some quote_B] "tweets.xml" ∅).
  vm_compute. reflexivity.
Defined.
